(** * GRC automation toolkit: scoring and framework mapping

    A shallow embedding of the two computational functions of the toolkit,
    [calculate_risk_score] (with the risk-level test of
    [generate_assessment_report]) from [phase1_assessor.py] and
    [analyze_framework_impact] from [phase2_mapper.py], together with the
    Python string primitives they call.  Around them: the loading of the
    template, the collection of the answers from the lines typed, the two
    report writers as the sequences of their writes, and the two scripts.
    Reading and writing files is outside the embedding: a file enters as
    the rows read from it and leaves as its name and what is written.

    Conventions.
    - Python [int] is [Z]; Python [str] is [string], read as ASCII text:
      [Py.lower], [Py.isspace], [Py.int_isspace] and [Py.digit] treat the
      ASCII letters, blanks and digits, and the interpreter's cap on the
      length of a decimal conversion is left out.
    - A row dictionary with a fixed set of keys is a record whose fields
      carry the key names.  A dictionary used as a map is a [gmap].
    - The records are complete rows: every cell is a string.  Module [Raw]
      embeds the mapper, its script and the template loader a second time
      on the rows as [csv.DictReader] yields them, dictionaries whose
      cells may be [None], with the exceptions the code then raises as an
      explicit outcome; [analyze_complete] relates the two.
    - [None] returned by [Py.int] stands for the [ValueError] raised by the
      builtin; every call site in the sources sits in a [try] block that
      handles it, which the embedding writes as a [match].
    - [print] calls are dropped: they do not influence any returned value. *)

From Stdlib Require Import ZArith Ascii String List Lia DecimalString DecimalPos.
From stdpp Require Import gmap strings list fin_maps sorting.

Local Open Scope string_scope.
Local Open Scope list_scope.
Local Open Scope Z_scope.

(** ** Python string builtins *)

Module Py.

(** Characters removed by [str.strip]: TAB, LF, VT, FF, CR, the separators
    FS, GS, RS, US, and the space. *)
Definition isspace (c : ascii) : bool :=
  let n := nat_of_ascii c in
  ((9 <=? n)%nat && (n <=? 13)%nat)
  || ((28 <=? n)%nat && (n <=? 32)%nat).

Fixpoint lstrip (s : string) : string :=
  match s with
  | String c s' => if isspace c then lstrip s' else s
  | EmptyString => EmptyString
  end.

Fixpoint rstrip (s : string) : string :=
  match s with
  | String c s' =>
      match rstrip s' with
      | EmptyString => if isspace c then EmptyString else String c EmptyString
      | r => String c r
      end
  | EmptyString => EmptyString
  end.

(** [s.strip()] *)
Definition strip (s : string) : string := rstrip (lstrip s).

Definition lower_char (c : ascii) : ascii :=
  let n := nat_of_ascii c in
  if ((65 <=? n)%nat && (n <=? 90)%nat)%bool then ascii_of_nat (n + 32) else c.

(** [s.lower()] *)
Fixpoint lower (s : string) : string :=
  match s with
  | String c s' => String (lower_char c) (lower s')
  | EmptyString => EmptyString
  end.

(** [s.split(sep)] for a one-character separator: the result always has
    one more element than [s] has separators, empty pieces included. *)
Fixpoint split (sep : ascii) (s : string) : list string :=
  match s with
  | EmptyString => [EmptyString]
  | String c s' =>
      if Ascii.eqb c sep then EmptyString :: split sep s'
      else match split sep s' with
           | piece :: pieces => String c piece :: pieces
           | [] => [String c EmptyString]
           end
  end.

Definition digit (c : ascii) : option Z :=
  let n := nat_of_ascii c in
  if ((48 <=? n)%nat && (n <=? 57)%nat)%bool then Some (Z.of_nat n - 48) else None.

(** The digit part of a base-10 literal: decimal digits, with single
    underscores allowed between two digits.  [after_digit] records
    whether the previous character was a digit, so that the literal can
    neither start nor end with an underscore nor contain two in a row. *)
Fixpoint int_digits (after_digit : bool) (acc : Z) (s : string) : option Z :=
  match s with
  | EmptyString => if after_digit then Some acc else None
  | String c s' =>
      if Ascii.eqb c "_" then
        if after_digit then int_digits false acc s' else None
      else
        match digit c with
        | Some d => int_digits true (10 * acc + d) s'
        | None => None
        end
  end.

(** Characters that [int] skips around a literal: TAB, LF, VT, FF, CR and
    the space.  The separators FS, GS, RS, US, which [str.strip] removes,
    are not among them. *)
Definition int_isspace (c : ascii) : bool :=
  let n := nat_of_ascii c in
  ((9 <=? n)%nat && (n <=? 13)%nat) || (n =? 32)%nat.

Fixpoint int_lstrip (s : string) : string :=
  match s with
  | String c s' => if int_isspace c then int_lstrip s' else s
  | EmptyString => EmptyString
  end.

Fixpoint int_rstrip (s : string) : string :=
  match s with
  | String c s' =>
      match int_rstrip s' with
      | EmptyString => if int_isspace c then EmptyString else String c EmptyString
      | r => String c r
      end
  | EmptyString => EmptyString
  end.

(** [int(s)] on a string: the blanks it skips at both ends, an optional
    sign, then the digits.  [None] is the [ValueError]. *)
Definition int (s : string) : option Z :=
  match int_rstrip (int_lstrip s) with
  | String "+" ds => int_digits false 0 ds
  | String "-" ds => Z.opp <$> int_digits false 0 ds
  | ds => int_digits false 0 ds
  end.

(** [str(n)] on an integer. *)
Definition str (n : Z) : string :=
  match n with
  | Z0 => "0"
  | Zpos p => DecimalString.NilEmpty.string_of_uint (Pos.to_uint p)
  | Zneg p => String "-" (DecimalString.NilEmpty.string_of_uint (Pos.to_uint p))
  end.

(** [c in s] for a character [c]. *)
Fixpoint contains (c : ascii) (s : string) : bool :=
  match s with
  | EmptyString => false
  | String c' s' => Ascii.eqb c' c || contains c s'
  end.

End Py.

(** ** Phase 1: [phase1_assessor.py] *)

Module Phase1.

(** One element of [assessment_results] as [conduct_assessment] builds
    it: the question's columns, with [RiskWeight] already converted to an
    integer by [load_questionnaire], and the validated answer. *)
Record Result := {
  QuestionID : string;
  QuestionText : string;
  AnswerType : string;
  RiskWeight : Z;
  RiskArea : string;
  AnswerGiven : string
}.

(** The body of the loop of [calculate_risk_score] up to the value of
    [points] (lines 102-124). *)
Definition points (result : Result) : Z :=
  let answer := AnswerGiven result in
  let answer_type := Py.lower (AnswerType result) in
  let risk_weight := RiskWeight result in
  if String.eqb answer_type "yes_no" then
    if String.eqb answer "no" then risk_weight else 0
  else if String.eqb answer_type "score_1_5" then
    match Py.int answer with
    | Some score => (5 - score) * risk_weight
    | None => risk_weight
    end
  else 0.

(** Lines 129-130: what one turn of the loop does to [total_risk_points]
    and [question_scores]. *)
Definition accumulate (state : Z * gmap string Z) (result : Result)
  : Z * gmap string Z :=
  let '(total_risk_points, question_scores) := state in
  let points := points result in
  (total_risk_points + points, <[QuestionID result := points]> question_scores).

(** [calculate_risk_score]: the pair of [total_risk_points] and
    [question_scores] after the loop. *)
Definition calculate_risk_score (assessment_results : list Result)
  : Z * gmap string Z :=
  foldl accumulate (0, ∅) assessment_results.

(** The threshold test of [generate_assessment_report] (lines 144-149). *)
Definition risk_level (total_score : Z) : string :=
  if total_score >? 50 then "High"
  else if total_score >? 20 then "Medium"
  else "Low".

End Phase1.

(** ** Phase 2: [phase2_mapper.py] *)

Module Phase2.

(** A complete row of the completed-assessment file as [load_csv_data]
    reads it: every column is a string, [RiskWeight] included.  Rows that
    are shorter than the header, and the exceptions they lead to, are the
    subject of [Raw] below. *)
Record Row := {
  QuestionID : string;
  QuestionText : string;
  AnswerType : string;
  RiskWeight : string;
  RiskArea : string;
  AnswerGiven : string
}.

(** A complete row of the questionnaire template.  The control column
    is optional: [None] is a template without it, which the mapper reads
    with [.get('RelevantFrameworkControl', '')].  A row cut short before
    its control cell is a row of [Raw] below, not of this type. *)
Record Question := {
  q_QuestionID : string;
  q_QuestionText : string;
  q_AnswerType : string;
  q_RiskWeight : string;
  q_RiskArea : string;
  q_RelevantFrameworkControl : option string
}.

(** [finding_details].  The source appends one dictionary object under
    every control of a question; the object is never written after its
    creation, so sharing is not observable and a value is enough. *)
Record Finding := {
  f_QuestionID : string;
  f_QuestionText : string;
  f_AnswerGiven : string;
  f_RiskPoints : Z;
  f_RiskArea : string
}.

(** Lines 43-46. *)
Definition risk_weight (result : Row) : Z :=
  match Py.int (RiskWeight result) with
  | Some w => w
  | None => 0
  end.

(** Lines 49-58: the value of [points_earned]. *)
Definition points_earned (result : Row) : Z :=
  let answer := AnswerGiven result in
  let answer_type := Py.lower (AnswerType result) in
  let risk_weight := risk_weight result in
  if String.eqb answer_type "yes_no" then
    if String.eqb answer "no" then risk_weight else 0
  else if String.eqb answer_type "score_1_5" then
    match Py.int answer with
    | Some score => (5 - score) * risk_weight
    | None => 0
    end
  else 0.

(** Line 30: the dictionary comprehension; a later row with the same
    identifier replaces an earlier one. *)
Definition question_lookup (template_questions : list Question)
  : gmap string Question :=
  foldl (fun lookup q => <[q_QuestionID q := q]> lookup) ∅ template_questions.

(** Line 71: [[c.strip() for c in s.split(';') if c.strip()]]. *)
Definition relevant_controls (relevant_controls_str : string) : list string :=
  List.map Py.strip
    (List.filter (fun c => negb (String.eqb (Py.strip c) EmptyString))
                 (Py.split ";" relevant_controls_str)).

(** Lines 82-84. *)
Definition append_finding (framework_findings : gmap string (list Finding))
    (control : string) (finding_details : Finding)
  : gmap string (list Finding) :=
  let framework_findings :=
    match framework_findings !! control with
    | None => <[control := []]> framework_findings
    | Some _ => framework_findings
    end in
  match framework_findings !! control with
  | Some findings => <[control := findings ++ [finding_details]]> framework_findings
  | None => framework_findings
  end.

(** Lines 73-79: the dictionary built for a risky answer. *)
Definition finding_details (result : Row) (template_info : Question) : Finding :=
  {| f_QuestionID := QuestionID result;
     f_QuestionText := q_QuestionText template_info;
     f_AnswerGiven := AnswerGiven result;
     f_RiskPoints := points_earned result;
     f_RiskArea := q_RiskArea template_info |}.

(** The body of the main loop (lines 39-85) as a function of the
    findings collected so far, on complete rows, where no statement of
    the body raises ([Raw.process_result] is the body on rows of any
    length, and agrees with this one on complete rows). *)
Definition process_result (question_lookup : gmap string Question)
    (framework_findings : gmap string (list Finding)) (result : Row)
  : gmap string (list Finding) :=
  let q_id := QuestionID result in
  let is_risky_answer := points_earned result >? 0 in
  if is_risky_answer then
    match question_lookup !! q_id with
    | Some template_info =>
        let relevant_controls_str :=
          Py.strip (default EmptyString (q_RelevantFrameworkControl template_info)) in
        if negb (String.eqb relevant_controls_str EmptyString) then
          foldl (fun findings control =>
                   append_finding findings control
                                  (finding_details result template_info))
                framework_findings (relevant_controls relevant_controls_str)
        else framework_findings
    | None => framework_findings
    end
  else framework_findings.

(** Python truth value of an argument that is either [None] (absent) or
    a list. *)
Definition truthy {A} (x : option (list A)) : bool :=
  match x with
  | Some (_ :: _) => true
  | _ => false
  end.

(** [analyze_framework_impact].  An argument [None] is Python's [None];
    a result [None] is the [return None] of line 27. *)
Definition analyze_framework_impact
    (template_questions : option (list Question))
    (assessment_results : option (list Row))
  : option (gmap string (list Finding)) :=
  if negb (truthy template_questions) || negb (truthy assessment_results)
  then None
  else
    let question_lookup := question_lookup (default [] template_questions) in
    Some (foldl (process_result question_lookup) ∅
                (default [] assessment_results)).

(** The loop of lines 81-84: one finding appended under each control of
    a list, in order. *)
Definition append_all (framework_findings : gmap string (list Finding))
    (controls : list string) (finding_details : Finding)
  : gmap string (list Finding) :=
  foldl (fun findings control => append_finding findings control finding_details)
        framework_findings controls.

(** Every control of a map has a non-empty list of findings, all of
    which satisfy [Q]. *)
Definition findings_all (Q : Finding -> Prop)
    (framework_findings : gmap string (list Finding)) : Prop :=
  forall control findings,
    framework_findings !! control = Some findings ->
    findings <> [] /\ Forall Q findings.

End Phase2.

(** ** Phase 1: loading the template and collecting the answers *)

Module Collect.

(** A question as [load_questionnaire] hands it to the rest of phase 1:
    the five required columns, [RiskWeight] converted to an integer.
    Further columns of the template stay in the dictionary and are not
    read by phase 1. *)
Record Question := {
  QuestionID : string;
  QuestionText : string;
  AnswerType : string;
  RiskWeight : Z;
  RiskArea : string
}.

Definition required_cols : list string :=
  ["QuestionID"; "QuestionText"; "AnswerType"; "RiskWeight"; "RiskArea"].

(** [x in xs] for a list of strings. *)
Definition in_list (x : string) (xs : list string) : bool :=
  existsb (String.eqb x) xs.

(** Lines 19-25 of [load_questionnaire]: the weight column of a template
    row converted, 0 standing in for a value that is not an integer. *)
Definition convert_row (row : Phase2.Question) : Question :=
  {| QuestionID := Phase2.q_QuestionID row;
     QuestionText := Phase2.q_QuestionText row;
     AnswerType := Phase2.q_AnswerType row;
     RiskWeight := match Py.int (Phase2.q_RiskWeight row) with
                   | Some w => w
                   | None => 0
                   end;
     RiskArea := Phase2.q_RiskArea row |}.

(** [load_questionnaire] on what [csv.DictReader] yields for a file of
    complete rows (every cell a string; [Raw.load_questionnaire] is the
    function on rows of any length): the header and the rows; [None] as
    argument is a file that does not exist.
    The result [None] is the [return None] of both handlers, reached for a
    missing file and for a header without the required columns. *)
Definition load_questionnaire (file : option (list string * list Phase2.Question))
  : option (list Question) :=
  match file with
  | None => None
  | Some (fieldnames, rows) =>
      if forallb (fun col => in_list col fieldnames) required_cols
      then Some (List.map convert_row rows)
      else None
  end.

(** What a function that calls [input] does with the lines still to be
    typed: it returns a value and leaves the lines it did not read, or it
    asks for a line when none is left. *)
Inductive interaction (A : Type) : Type :=
| Returned (value : A) (unread : list string)
| EndOfInput.
Arguments Returned {A} value unread.
Arguments EndOfInput {A}.

(** One pass through the loop body of [get_validated_input] (lines 40-65)
    for the stripped, lower-cased line [user_input]: [Some] is the value
    returned, [None] the fall through to the next prompt. *)
Definition validate (question : Question) (user_input : string) : option string :=
  let answer_type := Py.lower (AnswerType question) in
  if String.eqb answer_type "yes_no" then
    if in_list user_input ["yes"; "no"; "y"; "n"] then
      Some (if in_list user_input ["yes"; "y"] then "yes" else "no")
    else None
  else if String.eqb answer_type "score_1_5" then
    match Py.int user_input with
    | Some score =>
        if (1 <=? score) && (score <=? 5) then Some (Py.str score) else None
    | None => None
    end
  else if String.eqb answer_type "text" then
    if negb (String.eqb user_input EmptyString) then Some user_input else None
  else Some user_input.

(** [get_validated_input]: prompt until a line validates. *)
Fixpoint get_validated_input (question : Question) (inputs : list string)
  : interaction string :=
  match inputs with
  | [] => EndOfInput
  | line :: unread =>
      match validate question (Py.lower (Py.strip line)) with
      | Some answer => Returned answer unread
      | None => get_validated_input question unread
      end
  end.

(** Lines 83-91: the dictionary appended for an answered question. *)
Definition answered (question : Question) (answer : string) : Phase1.Result :=
  {| Phase1.QuestionID := QuestionID question;
     Phase1.QuestionText := QuestionText question;
     Phase1.AnswerType := AnswerType question;
     Phase1.RiskWeight := RiskWeight question;
     Phase1.RiskArea := RiskArea question;
     Phase1.AnswerGiven := answer |}.

(** The loop of [conduct_assessment] (lines 80-91). *)
Fixpoint ask_all (questions : list Question) (inputs : list string)
  : interaction (list Phase1.Result) :=
  match questions with
  | [] => Returned [] inputs
  | question :: questions' =>
      match get_validated_input question inputs with
      | Returned answer unread =>
          match ask_all questions' unread with
          | Returned results unread' =>
              Returned (answered question answer :: results) unread'
          | EndOfInput => EndOfInput
          end
      | EndOfInput => EndOfInput
      end
  end.

(** [conduct_assessment].  The value [None] is the [return None] of lines
    71 and 76; otherwise the pair of the vendor name and the results. *)
Definition conduct_assessment (questions : option (list Question))
    (inputs : list string)
  : interaction (option (string * list Phase1.Result)) :=
  if negb (Phase2.truthy questions) then Returned None inputs
  else
    match inputs with
    | [] => EndOfInput
    | line :: unread =>
        let vendor_name := Py.strip line in
        if String.eqb vendor_name EmptyString then Returned None unread
        else
          match ask_all (default [] questions) unread with
          | Returned results unread' => Returned (Some (vendor_name, results)) unread'
          | EndOfInput => EndOfInput
          end
    end.

(** A line that sends [get_validated_input] round its loop again. *)
Definition rejected (question : Question) (line : string) : Prop :=
  validate question (Py.lower (Py.strip line)) = None.

(** A result that [conduct_assessment] can append for a question: the
    question's columns with an answer that [get_validated_input] returned
    for it. *)
Definition collected (question : Question) (result : Phase1.Result) : Prop :=
  exists inputs unread,
    get_validated_input question inputs = Returned (Phase1.AnswerGiven result) unread
    /\ result = answered question (Phase1.AnswerGiven result).

End Collect.

(** ** Sample questionnaire *)

Module Demo.

Definition template : list Phase2.Question :=
  [ {| Phase2.q_QuestionID := "Q1"; Phase2.q_QuestionText := "MFA enforced?";
       Phase2.q_AnswerType := "Yes_No"; Phase2.q_RiskWeight := "10";
       Phase2.q_RiskArea := "Access";
       Phase2.q_RelevantFrameworkControl := Some "ISO:A.9; NIST:AC-2" |};
    {| Phase2.q_QuestionID := "Q2"; Phase2.q_QuestionText := "Patching maturity";
       Phase2.q_AnswerType := "Score_1_5"; Phase2.q_RiskWeight := "7";
       Phase2.q_RiskArea := "Operations";
       Phase2.q_RelevantFrameworkControl := Some "ISO:A.12" |};
    {| Phase2.q_QuestionID := "Q3"; Phase2.q_QuestionText := "Notes";
       Phase2.q_AnswerType := "Text"; Phase2.q_RiskWeight := "n/a";
       Phase2.q_RiskArea := "General";
       Phase2.q_RelevantFrameworkControl := Some EmptyString |} ].

Definition header : list string :=
  ["QuestionID"; "QuestionText"; "AnswerType"; "RiskWeight"; "RiskArea";
   "RelevantFrameworkControl"].

Definition questionnaire : option (list Collect.Question) :=
  Collect.load_questionnaire (Some (header, template)).

(** The lines typed: the vendor, a rejected and an accepted answer to Q1,
    two rejected and an accepted answer to Q2, a blank and an accepted
    answer to Q3. *)
Definition typed : list string :=
  [" Acme Corp "; "maybe"; "N"; "0"; "six"; " 2"; "  "; "See SOC 2"].

Definition results : list Phase1.Result :=
  [ {| Phase1.QuestionID := "Q1"; Phase1.QuestionText := "MFA enforced?";
       Phase1.AnswerType := "Yes_No"; Phase1.RiskWeight := 10;
       Phase1.RiskArea := "Access"; Phase1.AnswerGiven := "no" |};
    {| Phase1.QuestionID := "Q2"; Phase1.QuestionText := "Patching maturity";
       Phase1.AnswerType := "Score_1_5"; Phase1.RiskWeight := 7;
       Phase1.RiskArea := "Operations"; Phase1.AnswerGiven := "2" |};
    {| Phase1.QuestionID := "Q3"; Phase1.QuestionText := "Notes";
       Phase1.AnswerType := "Text"; Phase1.RiskWeight := 0;
       Phase1.RiskArea := "General"; Phase1.AnswerGiven := "see soc 2" |} ].

End Demo.

(** ** From phase 1 to phase 2 *)

(** The row that phase 2 reads for a phase-1 result: [save_assessment_data]
    writes the six columns with [csv.DictWriter], which writes [str(v)] for
    the integer column, and [load_csv_data] reads every column back as a
    string. *)
Definition csv_row (result : Phase1.Result) : Phase2.Row :=
  {| Phase2.QuestionID := Phase1.QuestionID result;
     Phase2.QuestionText := Phase1.QuestionText result;
     Phase2.AnswerType := Phase1.AnswerType result;
     Phase2.RiskWeight := Py.str (Phase1.RiskWeight result);
     Phase2.RiskArea := Phase1.RiskArea result;
     Phase2.AnswerGiven := Phase1.AnswerGiven result |}.

(** ** Reference rules, as the specification words them *)

Module Reference.

(** The closed enumeration of answer types, with the explicit variant for
    anything unrecognised. *)
Inductive AnswerType := YesNo | Score1to5 | Text | Unknown.

(** How the column value of the sources names each variant. *)
Definition answerType_of (column : string) : AnswerType :=
  let t := Py.lower column in
  if String.eqb t "yes_no" then YesNo
  else if String.eqb t "score_1_5" then Score1to5
  else if String.eqb t "text" then Text
  else Unknown.

(** The per-answer-type rules on the inputs they fix: the answer "no"
    scores the weight and any other YesNo answer scores 0; a Score1to5
    answer that parses to [s] with [1 <= s <= 5] scores [(5 - s) * w];
    Text and unrecognised types score 0.  A Score1to5 answer outside
    these rules has no reference value here. *)
Definition score (answerType : AnswerType) (riskWeight : Z)
    (answerGiven : string) : option Z :=
  match answerType with
  | YesNo => if String.eqb answerGiven "no" then Some riskWeight else Some 0
  | Score1to5 =>
      match Py.int answerGiven with
      | Some s =>
          if (1 <=? s) && (s <=? 5) then Some ((5 - s) * riskWeight) else None
      | None => None
      end
  | Text => Some 0
  | Unknown => Some 0
  end.

(** The fixed thresholds: above 50 is High, above 20 and at most 50 is
    Medium, at most 20 is Low. *)
Definition riskLevel (totalScore : Z) : string :=
  if decide (totalScore > 50) then "High"
  else if decide (20 < totalScore <= 50) then "Medium"
  else "Low".

(** The sum of the risk points of a sequence of answers. *)
Definition totalScore (riskPoints : list Z) : Z :=
  foldr Z.add 0 riskPoints.

(** The answers on which the scoring rule cannot go below zero: anything
    but a Score1to5 answer that parses to a number above 5. *)
Definition within_scale (answer_type answer : string) : Prop :=
  forall score : Z,
    Py.lower answer_type = "score_1_5" -> Py.int answer = Some score -> score <= 5.

(** The answer that wins under a question identifier: the last one of
    the sequence that carries it. *)
Definition last_answer (questionId : string)
    (answeredQuestions : list Phase1.Result) : option Phase1.Result :=
  last (filter (fun r => Phase1.QuestionID r = questionId) answeredQuestions).

End Reference.

(** ** Sample data *)

Module Sample.

Definition result (id type : string) (weight : Z) (answer : string)
  : Phase1.Result :=
  {| Phase1.QuestionID := id; Phase1.QuestionText := "Question " +:+ id;
     Phase1.AnswerType := type; Phase1.RiskWeight := weight;
     Phase1.RiskArea := "Access"; Phase1.AnswerGiven := answer |}.

Definition question (id type weight : string) (controls : option string)
  : Phase2.Question :=
  {| Phase2.q_QuestionID := id; Phase2.q_QuestionText := "Question " +:+ id;
     Phase2.q_AnswerType := type; Phase2.q_RiskWeight := weight;
     Phase2.q_RiskArea := "Access"; Phase2.q_RelevantFrameworkControl := controls |}.

(** A Score1to5 answer that is not a number. *)
Definition unparseable : Phase1.Result := result "Q3" "score_1_5" 3 "abc".

(** A Score1to5 answer that is a number above the scale. *)
Definition above_scale : Phase1.Result := result "Q4" "score_1_5" 1 "6".

Definition yes_no_no : Phase1.Result := result "Q1" "yes_no" 10 "no".
Definition yes_no_yes : Phase1.Result := result "Q1" "yes_no" 10 "yes".

(** The finding that the answer "no" to Q1 leaves under a control. *)
Definition finding_Q1 : Phase2.Finding :=
  {| Phase2.f_QuestionID := "Q1"; Phase2.f_QuestionText := "Question Q1";
     Phase2.f_AnswerGiven := "no"; Phase2.f_RiskPoints := 10;
     Phase2.f_RiskArea := "Access" |}.

Definition catalog : list Phase2.Question :=
  [question "Q1" "yes_no" "10" (Some "ISO:A.9")].

Definition two_controls : list Phase2.Question :=
  [question "Q1" "yes_no" "10" (Some "ISO:A.9; NIST:AC-2")].

End Sample.

(** ** More Python builtins, for the reports *)

Module PyText.

(** The line feed written as [\n] in the sources. *)
Definition nl : string := String (ascii_of_nat 10) EmptyString.

(** [s.replace(a, b)] for one-character [a] and [b]. *)
Fixpoint replace (a b : ascii) (s : string) : string :=
  match s with
  | EmptyString => EmptyString
  | String c s' => String (if Ascii.eqb c a then b else c) (replace a b s')
  end.

(** [sep.join(pieces)] *)
Fixpoint join (sep : string) (pieces : list string) : string :=
  match pieces with
  | [] => EmptyString
  | [piece] => piece
  | piece :: pieces' => piece +:+ sep +:+ join sep pieces'
  end.

(** [sorted(xs, key=key)] for string keys: the sort is stable, so an
    element goes in front of the first later element whose key is not
    smaller than its own. *)
Fixpoint insert_sorted {A} (key : A -> string) (x : A) (xs : list A) : list A :=
  match xs with
  | [] => [x]
  | y :: ys =>
      if String.leb (key x) (key y) then x :: xs
      else y :: insert_sorted key x ys
  end.

Definition sorted {A} (key : A -> string) (xs : list A) : list A :=
  foldr (insert_sorted key) [] xs.

End PyText.

(** ** Phase 1: the assessment report and the data file *)

Module AssessmentReport.

(** [vendor_name.replace(' ', '_').lower()], shared by both file names. *)
Definition slug (vendor_name : string) : string :=
  Py.lower (PyText.replace " " "_" vendor_name).

Definition report_filename (vendor_name : string) : string :=
  "assessment_report_" +:+ slug vendor_name +:+ ".md".

(** Line 182 of [save_assessment_data]. *)
Definition data_filename (vendor_name : string) : string :=
  "completed_assessment_" +:+ slug vendor_name +:+ ".csv".

(** The calls of [outfile.write] in [generate_assessment_report], one
    constructor per call site, with the values put into the text. *)
Inductive write : Type :=
| Title (vendor_name : string)
| DateLine (script : string)
| TotalLine (total_score : Z)
| LevelLine (risk_level : string)
| DetailsHeading
| AreaHeading (risk_area : string)
| QuestionLine (question_id question_text : string)
| AnswerLine (answer : string)
| PointsLine (points_earned risk_weight : Z)
| BlankLine
| Rule
| Disclaimer.

(** The text of each call. *)
Definition text (w : write) : string :=
  match w with
  | Title vendor_name =>
      "# Vendor Risk Assessment Report: " +:+ vendor_name +:+ PyText.nl +:+ PyText.nl
  | DateLine script =>
      "**Date of Assessment:** " +:+ script +:+ " (Simulated)" +:+ PyText.nl
  | TotalLine total_score =>
      "**Total Risk Score (Higher is riskier):** " +:+ Py.str total_score
      +:+ PyText.nl +:+ PyText.nl
  | LevelLine risk_level =>
      "**Overall Risk Level (Based on simple scoring):** " +:+ risk_level
      +:+ PyText.nl +:+ PyText.nl
  | DetailsHeading => "## Detailed Responses" +:+ PyText.nl +:+ PyText.nl
  | AreaHeading risk_area => "### " +:+ risk_area +:+ PyText.nl +:+ PyText.nl
  | QuestionLine question_id question_text =>
      "**" +:+ question_id +:+ ":** " +:+ question_text +:+ PyText.nl
  | AnswerLine answer => "> **Answer:** " +:+ answer +:+ PyText.nl
  | PointsLine points_earned risk_weight =>
      "> **Risk Points Added:** " +:+ Py.str points_earned +:+ " (Weight: "
      +:+ Py.str risk_weight +:+ ")" +:+ PyText.nl
  | BlankLine => PyText.nl
  | Rule => PyText.nl +:+ "---" +:+ PyText.nl
  | Disclaimer =>
      "This is a simulated assessment generated by a GRC Automation Toolkit project. The scoring is based on a simplified model."
  end.

(** The loop of lines 159-172 from the value of [current_risk_area]
    ([None] before the first result). *)
Fixpoint details (question_scores : gmap string Z)
    (current_risk_area : option string) (sorted_results : list Phase1.Result)
  : list write :=
  match sorted_results with
  | [] => []
  | result :: sorted_results' =>
      let changed :=
        negb (bool_decide (Some (Phase1.RiskArea result) = current_risk_area)) in
      let current_risk_area :=
        if changed then Some (Phase1.RiskArea result) else current_risk_area in
      let question_id := Phase1.QuestionID result in
      let points_earned := default 0 (question_scores !! question_id) in
      (if changed then [AreaHeading (Phase1.RiskArea result)] else [])
      ++ [QuestionLine question_id (Phase1.QuestionText result);
          AnswerLine (Phase1.AnswerGiven result)]
      ++ (if negb (String.eqb (Py.lower (Phase1.AnswerType result)) "text")
          then [PointsLine points_earned (Phase1.RiskWeight result)] else [])
      ++ [BlankLine]
      ++ details question_scores current_risk_area sorted_results'
  end.

(** [generate_assessment_report]: the name of the file and what is
    written to it.  [script] is [os.path.basename(__file__)]. *)
Definition generate_assessment_report (script vendor_name : string)
    (assessment_results : list Phase1.Result) (total_score : Z)
    (question_scores : gmap string Z) : string * list write :=
  let risk_level := Phase1.risk_level total_score in
  let sorted_results := PyText.sorted Phase1.RiskArea assessment_results in
  (report_filename vendor_name,
   [Title vendor_name; DateLine script; TotalLine total_score;
    LevelLine risk_level; DetailsHeading]
   ++ details question_scores None sorted_results
   ++ [Rule; Disclaimer]).

(** The risk areas for which a heading is written, in order. *)
Definition area_headings (writes : list write) : list string :=
  flat_map (fun w => match w with AreaHeading a => [a] | _ => [] end) writes.


(** How the [__main__] block of phase 1 can end. *)
Inductive run : Type :=
| CouldNotLoad
| UnpackTypeError
| NothingSaved
| OutOfInput
| Completed (report : string * list write) (data : string * list Phase2.Row).

(** The [__main__] block (lines 204-215): [file] is the template as read,
    [inputs] the lines typed.  [UnpackTypeError] is the failure of the
    tuple assignment of line 206 when [conduct_assessment] returns
    [None]. *)
Definition main (script : string)
    (file : option (list string * list Phase2.Question)) (inputs : list string)
  : run :=
  let questionnaire := Collect.load_questionnaire file in
  if Phase2.truthy questionnaire then
    match Collect.conduct_assessment questionnaire inputs with
    | Collect.EndOfInput => OutOfInput
    | Collect.Returned None _ => UnpackTypeError
    | Collect.Returned (Some (vendor_name, results)) _ =>
        match results with
        | _ :: _ =>
            let '(total_score, question_scores) :=
              Phase1.calculate_risk_score results in
            Completed
              (generate_assessment_report script vendor_name results
                 total_score question_scores)
              (data_filename vendor_name, List.map csv_row results)
        | [] => NothingSaved
        end
    end
  else CouldNotLoad.

(** The question identifiers of the question lines written, in order. *)
Definition question_ids (writes : list write) : list string :=
  flat_map (fun w => match w with QuestionLine q _ => [q] | _ => [] end) writes.

End AssessmentReport.

(** ** Phase 2: the framework report *)

Module FrameworkReport.

Definition report_filename (vendor_name : string) : string :=
  "framework_compliance_report_" +:+ AssessmentReport.slug vendor_name +:+ ".md".

(** The calls of [outfile.write] in [generate_framework_report]. *)
Inductive write : Type :=
| Title (vendor_name : string)
| DateLine (script : string)
| FrameworksLine (frameworks : string)
| NoImpacts
| ImpactsHeading
| ImpactsIntro
| ControlHeading (control : string)
| RelevantFindings
| QuestionLine (question_id question_text : string)
| AnswerLine (answer : string)
| PointsLine (risk_points : Z)
| AreaLine (risk_area : string)
| BlankLine
| Rule
| Disclaimer.

Definition text (w : write) : string :=
  match w with
  | Title vendor_name =>
      "# Framework Compliance Impact Report for Vendor: " +:+ vendor_name
      +:+ PyText.nl +:+ PyText.nl
  | DateLine script =>
      "**Date of Analysis:** " +:+ script +:+ " (Simulated)" +:+ PyText.nl
  | FrameworksLine frameworks =>
      "**Potentially Impacted Frameworks:** " +:+ frameworks
      +:+ PyText.nl +:+ PyText.nl
  | NoImpacts =>
      "No potential framework control impacts were identified based on the vendor's assessment responses."
      +:+ PyText.nl
  | ImpactsHeading =>
      "## Potential Framework Control Impacts" +:+ PyText.nl +:+ PyText.nl
  | ImpactsIntro =>
      "The following controls may be impacted by the vendor's security posture based on their assessment responses. This indicates areas of potential risk or where compensating controls may be needed internally."
      +:+ PyText.nl +:+ PyText.nl
  | ControlHeading control => "### " +:+ control +:+ PyText.nl +:+ PyText.nl
  | RelevantFindings =>
      "Relevant findings from the vendor assessment:" +:+ PyText.nl +:+ PyText.nl
  | QuestionLine question_id question_text =>
      "- **Question:** " +:+ question_id +:+ ": " +:+ question_text +:+ PyText.nl
  | AnswerLine answer => "  - **Vendor Answer:** " +:+ answer +:+ PyText.nl
  | PointsLine risk_points =>
      "  - **Risk Points Added:** " +:+ Py.str risk_points +:+ PyText.nl
  | AreaLine risk_area => "  - **Risk Area:** " +:+ risk_area +:+ PyText.nl
  | BlankLine => PyText.nl
  | Rule => PyText.nl +:+ "---" +:+ PyText.nl
  | Disclaimer =>
      "This is a simulated analysis generated by a GRC Automation Toolkit project. The mapping and risk identification are based on simplified criteria."
  end.

(** [framework_findings.keys()], in some order; every use sorts them. *)
Definition keys (framework_findings : gmap string (list Phase2.Finding))
  : list string :=
  (map_to_list framework_findings).*1.

(** Line 98: the distinct prefixes before the first colon of the controls
    that have one, ascending. *)
Definition frameworks_found (controls : list string) : list string :=
  PyText.sorted id
    (remove_dups
       (List.map (fun c => hd EmptyString (Py.split ":" c))
                 (List.filter (Py.contains ":") controls))).

(** Lines 116-121: what is written for one finding. *)
Definition finding_writes (finding : Phase2.Finding) : list write :=
  [QuestionLine (Phase2.f_QuestionID finding) (Phase2.f_QuestionText finding);
   AnswerLine (Phase2.f_AnswerGiven finding)]
  ++ (if Phase2.f_RiskPoints finding >? 0
      then [PointsLine (Phase2.f_RiskPoints finding)] else [])
  ++ [AreaLine (Phase2.f_RiskArea finding); BlankLine].

(** Lines 111-121: the section of one control. *)
Definition control_writes (framework_findings : gmap string (list Phase2.Finding))
    (control : string) : list write :=
  let findings := default [] (framework_findings !! control) in
  [ControlHeading control; RelevantFindings] ++ flat_map finding_writes findings.

(** [generate_framework_report]: the name of the file and what is written
    to it. *)
Definition generate_framework_report (script vendor_name : string)
    (framework_findings : gmap string (list Phase2.Finding))
  : string * list write :=
  let frameworks := PyText.join ", " (frameworks_found (keys framework_findings)) in
  (report_filename vendor_name,
   [Title vendor_name; DateLine script;
    FrameworksLine (if String.eqb frameworks EmptyString then "N/A" else frameworks)]
   ++ (if bool_decide (framework_findings = ∅) then [NoImpacts]
       else
         let sorted_controls := PyText.sorted id (keys framework_findings) in
         [ImpactsHeading; ImpactsIntro]
         ++ flat_map (control_writes framework_findings) sorted_controls)
   ++ [Rule; Disclaimer]).

(** The controls for which a section heading is written, in order. *)
Definition control_headings (writes : list write) : list string :=
  flat_map (fun w => match w with ControlHeading c => [c] | _ => [] end) writes.

(** What is written for a finding whose points line is shown. *)
Definition full_finding_writes (finding : Phase2.Finding) : list write :=
  [QuestionLine (Phase2.f_QuestionID finding) (Phase2.f_QuestionText finding);
   AnswerLine (Phase2.f_AnswerGiven finding);
   PointsLine (Phase2.f_RiskPoints finding);
   AreaLine (Phase2.f_RiskArea finding); BlankLine].

End FrameworkReport.

(** ** The rows as [csv.DictReader] yields them *)

Module Raw.

(** A cell is a string, or [None] where a row of the file is shorter than
    the header.  A row is the dictionary from the column names of the
    header to the cells; a column that the header lacks is a key that the
    dictionary lacks.  The cells of a row longer than the header, which
    [csv.DictReader] keeps in a list under the key [None], are read by
    neither module and are left out. *)
Abbreviation cell := (option string).
Abbreviation row := (gmap string (option string)).

(** The exceptions that the two modules raise and do not handle. *)
Inductive exn : Type := KeyError | AttributeError | TypeError.

Inductive outcome (A : Type) : Type :=
| Return (value : A)
| Raise (e : exn).
Arguments Return {A} value.
Arguments Raise {A} e.

Definition bind {A B} (x : outcome A) (k : A -> outcome B) : outcome B :=
  match x with
  | Return a => k a
  | Raise e => Raise e
  end.

Notation "'let*' x := a 'in' b" := (bind a (fun x => b))
  (at level 10, x name, a at level 100, b at level 200).

(** [d.get(k)] *)
Definition get (d : row) (k : string) : cell :=
  match d !! k with
  | Some c => c
  | None => None
  end.

(** [d.get(k, '').method()] for a string method: the method applied to
    the empty string for a missing key, [AttributeError] on [None]. *)
Definition get_str (d : row) (k : string) (method : string -> string)
  : outcome string :=
  match d !! k with
  | None => Return (method EmptyString)
  | Some None => Raise AttributeError
  | Some (Some s) => Return (method s)
  end.

(** [finding_details], with the cells it is built from. *)
Record finding := {
  QuestionID : cell;
  QuestionText : cell;
  AnswerGiven : cell;
  RiskPoints : Z;
  RiskArea : cell
}.

(** Lines 43-46 of the mapper: [int(result.get('RiskWeight', 0))] under
    a handler for [ValueError] only. *)
Definition risk_weight (result : row) : outcome Z :=
  match result !! "RiskWeight" with
  | None => Return 0
  | Some None => Raise TypeError
  | Some (Some s) => Return (match Py.int s with Some w => w | None => 0 end)
  end.

(** Lines 49-58. *)
Definition points_earned (answer : cell) (answer_type : string) (risk_weight : Z)
  : outcome Z :=
  if String.eqb answer_type "yes_no" then
    Return (if bool_decide (answer = Some "no") then risk_weight else 0)
  else if String.eqb answer_type "score_1_5" then
    match answer with
    | None => Raise TypeError
    | Some s =>
        Return (match Py.int s with
                | Some score => (5 - score) * risk_weight
                | None => 0
                end)
    end
  else Return 0.

(** Line 30: [q['QuestionID']] raises [KeyError] for a template without
    that column; a cell [None] is a key like any other. *)
Definition question_lookup (template_questions : list row)
  : outcome (gmap (option string) row) :=
  foldl (fun acc q =>
           let* lookup := acc in
           match q !! "QuestionID" with
           | Some q_id => Return (<[q_id := q]> lookup)
           | None => Raise KeyError
           end)
        (Return ∅) template_questions.

(** Lines 82-84. *)
Definition append_finding (framework_findings : gmap string (list finding))
    (control : string) (finding_details : finding)
  : gmap string (list finding) :=
  let framework_findings :=
    match framework_findings !! control with
    | None => <[control := []]> framework_findings
    | Some _ => framework_findings
    end in
  match framework_findings !! control with
  | Some findings => <[control := findings ++ [finding_details]]> framework_findings
  | None => framework_findings
  end.

(** The body of the main loop (lines 39-85). *)
Definition process_result (question_lookup : gmap (option string) row)
    (framework_findings : gmap string (list finding)) (result : row)
  : outcome (gmap string (list finding)) :=
  let q_id := get result "QuestionID" in
  let answer := get result "AnswerGiven" in
  let* answer_type := get_str result "AnswerType" Py.lower in
  let* risk_weight := risk_weight result in
  let* points_earned := points_earned answer answer_type risk_weight in
  let is_risky_answer := points_earned >? 0 in
  if is_risky_answer then
    match question_lookup !! q_id with
    | Some template_info =>
        let* relevant_controls_str :=
          get_str template_info "RelevantFrameworkControl" Py.strip in
        if negb (String.eqb relevant_controls_str EmptyString) then
          let finding_details :=
            {| QuestionID := q_id;
               QuestionText := get template_info "QuestionText";
               AnswerGiven := answer;
               RiskPoints := points_earned;
               RiskArea := get template_info "RiskArea" |} in
          Return (foldl (fun findings control =>
                           append_finding findings control finding_details)
                        framework_findings
                        (Phase2.relevant_controls relevant_controls_str))
        else Return framework_findings
    | None => Return framework_findings
    end
  else Return framework_findings.

(** The main loop: an exception ends it. *)
Definition process_results (question_lookup : gmap (option string) row)
    (assessment_results : list row)
  : outcome (gmap string (list finding)) :=
  foldl (fun acc result =>
           let* framework_findings := acc in
           process_result question_lookup framework_findings result)
        (Return ∅) assessment_results.

(** [analyze_framework_impact] on the rows as read.  [Return None] is the
    [return None] of line 27. *)
Definition analyze_framework_impact
    (template_questions assessment_results : option (list row))
  : outcome (option (gmap string (list finding))) :=
  if negb (Phase2.truthy template_questions)
     || negb (Phase2.truthy assessment_results)
  then Return None
  else
    let* question_lookup := question_lookup (default [] template_questions) in
    let* framework_findings :=
      process_results question_lookup (default [] assessment_results) in
    Return (Some framework_findings).

(** The rows that [load_csv_data] reads for complete lines of the two
    files: every cell a string. *)
Definition row_of_result (result : Phase2.Row) : row :=
  <["QuestionID" := Some (Phase2.QuestionID result)]>
  (<["QuestionText" := Some (Phase2.QuestionText result)]>
  (<["AnswerType" := Some (Phase2.AnswerType result)]>
  (<["RiskWeight" := Some (Phase2.RiskWeight result)]>
  (<["RiskArea" := Some (Phase2.RiskArea result)]>
  (<["AnswerGiven" := Some (Phase2.AnswerGiven result)]> ∅))))).

Definition row_of_question (question : Phase2.Question) : row :=
  let required : row :=
    <["QuestionID" := Some (Phase2.q_QuestionID question)]>
    (<["QuestionText" := Some (Phase2.q_QuestionText question)]>
    (<["AnswerType" := Some (Phase2.q_AnswerType question)]>
    (<["RiskWeight" := Some (Phase2.q_RiskWeight question)]>
    (<["RiskArea" := Some (Phase2.q_RiskArea question)]> ∅)))) in
  match Phase2.q_RelevantFrameworkControl question with
  | Some controls => <["RelevantFrameworkControl" := Some controls]> required
  | None => required
  end.

Definition finding_of (f : Phase2.Finding) : finding :=
  {| QuestionID := Some (Phase2.f_QuestionID f);
     QuestionText := Some (Phase2.f_QuestionText f);
     AnswerGiven := Some (Phase2.f_AnswerGiven f);
     RiskPoints := Phase2.f_RiskPoints f;
     RiskArea := Some (Phase2.f_RiskArea f) |}.

Definition findings_of (framework_findings : gmap string (list Phase2.Finding))
  : gmap string (list finding) :=
  fmap (List.map finding_of) framework_findings.

(** What an f-string shows for a cell. *)
Definition shown (c : cell) : string :=
  match c with
  | Some s => s
  | None => "None"
  end.

(** A finding as [generate_framework_report] prints it. *)
Definition printed (f : finding) : Phase2.Finding :=
  {| Phase2.f_QuestionID := shown (QuestionID f);
     Phase2.f_QuestionText := shown (QuestionText f);
     Phase2.f_AnswerGiven := shown (AnswerGiven f);
     Phase2.f_RiskPoints := RiskPoints f;
     Phase2.f_RiskArea := shown (RiskArea f) |}.

(** How the [__main__] block of phase 2 can end once the two files are
    read: with one of its two messages, with the report written, or with
    an exception of the analysis. *)
Inductive run : Type :=
| CouldNotLoadData
| AnalysisFailed
| ReportWritten (report : string * list FrameworkReport.write)
| Crashed (e : exn).

(** Lines 148-156 of the [__main__] block, for the vendor name derived
    from the data file's name. *)
Definition main (script vendor_name : string)
    (template_questions assessment_results : option (list row)) : run :=
  if Phase2.truthy template_questions && Phase2.truthy assessment_results then
    match analyze_framework_impact template_questions assessment_results with
    | Return (Some framework_findings) =>
        ReportWritten
          (FrameworkReport.generate_framework_report script vendor_name
             (fmap (List.map printed) framework_findings))
    | Return None => AnalysisFailed
    | Raise e => Crashed e
    end
  else CouldNotLoadData.

(** A question as [load_questionnaire] returns it: the row, with the
    integer stored under [RiskWeight] kept beside the other cells. *)
Record loaded := {
  cells : row;
  weight : Z
}.

(** Lines 19-25 of [load_questionnaire]: only [ValueError] is handled at
    the row. *)
Definition convert_row (r : row) : outcome loaded :=
  match r !! "RiskWeight" with
  | None => Raise KeyError
  | Some None => Raise TypeError
  | Some (Some s) =>
      Return {| cells := delete "RiskWeight" r;
                weight := match Py.int s with Some w => w | None => 0 end |}
  end.

Fixpoint convert_rows (rows : list row) : outcome (list loaded) :=
  match rows with
  | [] => Return []
  | r :: rows' =>
      let* q := convert_row r in
      let* qs := convert_rows rows' in
      Return (q :: qs)
  end.

(** [load_questionnaire] on the header and the rows as read; an exception
    of a row reaches the outer handler, which returns [None]. *)
Definition load_questionnaire (file : option (list string * list row))
  : option (list loaded) :=
  match file with
  | None => None
  | Some (fieldnames, rows) =>
      if forallb (fun col => Collect.in_list col fieldnames) Collect.required_cols
      then match convert_rows rows with
           | Return questions => Some questions
           | Raise _ => None
           end
      else None
  end.

(** A lookup table over the questions and the one built from their rows
    hold the same question under every identifier. *)
Definition same_lookup (lookup : gmap string Phase2.Question)
    (raw_lookup : gmap (option string) row) : Prop :=
  forall q_id, raw_lookup !! Some q_id = row_of_question <$> lookup !! q_id.

End Raw.

(** ** Rows for the edge cases *)

Module Cases.

(** A risky answer to a question that [Sample.catalog] does not hold. *)
Definition absent_risky : Phase1.Result :=
  {| Phase1.QuestionID := "Q9"; Phase1.QuestionText := "Backups tested?";
     Phase1.AnswerType := "yes_no"; Phase1.RiskWeight := 5;
     Phase1.RiskArea := "Resilience"; Phase1.AnswerGiven := "no" |}.

(** A template row cut short before its control cell. *)
Definition short_question : Raw.row :=
  <["RelevantFrameworkControl" := None]>
    (Raw.row_of_question (Sample.question "Q1" "yes_no" "10" None)).



(** A template row of a file without a QuestionID column. *)
Definition unnamed_question : Raw.row :=
  delete "QuestionID" (Raw.row_of_question (Sample.question "Q1" "yes_no" "10" None)).

Definition header : list string :=
  ["QuestionID"; "QuestionText"; "AnswerType"; "RiskWeight"; "RiskArea"].

End Cases.

(** ** Vocabulary for the further properties *)

Module Derived.

(** The sum of the points recorded in [question_scores]. *)
Definition score_sum (question_scores : gmap string Z) : Z :=
  map_fold (fun _ points acc => points + acc) 0 question_scores.

(** The findings that one answer leaves under one control: its finding
    once per occurrence of the control in the list of its catalog question,
    when the answer is risky and the question is in the catalog; nothing
    otherwise. *)
Definition contributions (question_lookup : gmap string Phase2.Question)
    (control : string) (result : Phase2.Row) : list Phase2.Finding :=
  if Phase2.points_earned result >? 0 then
    match question_lookup !! Phase2.QuestionID result with
    | Some template_info =>
        List.map (fun _ => Phase2.finding_details result template_info)
          (List.filter (String.eqb control)
             (Phase2.relevant_controls
                (Py.strip (default EmptyString
                             (Phase2.q_RelevantFrameworkControl template_info)))))
    | None => []
    end
  else [].

(** A control's entry after more findings were appended under it: as
    before when there are none, otherwise the old list (empty for a new
    control) followed by the new findings. *)
Definition extend (entry : option (list Phase2.Finding))
    (findings : list Phase2.Finding) : option (list Phase2.Finding) :=
  match findings with
  | [] => entry
  | _ :: _ => Some (default [] entry ++ findings)
  end.

End Derived.

(** * Properties *)

(** ** Sanity checks of the string builtins *)

Example int_examples :
  Py.int "3" = Some 3 /\ Py.int " -12 " = Some (-12) /\ Py.int "1_000" = Some 1000
  /\ Py.int "007" = Some 7 /\ Py.int EmptyString = None /\ Py.int "abc" = None
  /\ Py.int "1__0" = None /\ Py.int "_1" = None /\ Py.int "1_" = None
  /\ Py.int "- 1" = None /\ Py.int "+" = None /\ Py.int "3.0" = None.
Proof. repeat split; reflexivity. Qed.

(** [int] does not skip the separators that [strip] removes. *)
Example int_separator :
  let us5 := String (ascii_of_nat 31) "5" in
  Py.int us5 = None /\ Py.strip us5 = "5"
  /\ Py.int (String (ascii_of_nat 9) "5 ") = Some 5.
Proof. repeat split; reflexivity. Qed.

Example str_examples :
  Py.str 0 = "0" /\ Py.str 42 = "42" /\ Py.str (-7) = "-7".
Proof. repeat split; reflexivity. Qed.

Example string_examples :
  Py.strip "  a b  " = "a b" /\ Py.lower "Yes_No" = "yes_no"
  /\ Py.split ";" "a;b" = ["a"; "b"] /\ Py.split ";" EmptyString = [EmptyString]
  /\ Py.split ";" "a;;b;" = ["a"; EmptyString; "b"; EmptyString].
Proof. repeat split; reflexivity. Qed.

(** ** The scoring rule, case by case *)

Section Scoring.

Import Phase1.

Variable result : Result.

Lemma points_yes_no :
  Py.lower (AnswerType result) = "yes_no" ->
  points result = if String.eqb (AnswerGiven result) "no" then RiskWeight result else 0.
Proof. intros Ht. unfold points. now rewrite Ht. Qed.

Lemma points_score_parsed score :
  Py.lower (AnswerType result) = "score_1_5" ->
  Py.int (AnswerGiven result) = Some score ->
  points result = (5 - score) * RiskWeight result.
Proof. intros Ht Hs. unfold points. now rewrite Ht, Hs. Qed.

Lemma points_score_unparsed :
  Py.lower (AnswerType result) = "score_1_5" ->
  Py.int (AnswerGiven result) = None ->
  points result = RiskWeight result.
Proof. intros Ht Hs. unfold points. now rewrite Ht, Hs. Qed.

Lemma points_other :
  Py.lower (AnswerType result) <> "yes_no" ->
  Py.lower (AnswerType result) <> "score_1_5" ->
  points result = 0.
Proof.
  intros H1 H2. unfold points.
  destruct (String.eqb_spec (Py.lower (AnswerType result)) "yes_no"); [contradiction|].
  destruct (String.eqb_spec (Py.lower (AnswerType result)) "score_1_5"); [contradiction|].
  reflexivity.
Qed.

End Scoring.

Section Rescoring.

Import Phase2.

Variable result : Row.

Lemma points_earned_yes_no :
  Py.lower (AnswerType result) = "yes_no" ->
  points_earned result
  = if String.eqb (AnswerGiven result) "no" then risk_weight result else 0.
Proof. intros Ht. unfold points_earned. now rewrite Ht. Qed.

Lemma points_earned_score_parsed score :
  Py.lower (AnswerType result) = "score_1_5" ->
  Py.int (AnswerGiven result) = Some score ->
  points_earned result = (5 - score) * risk_weight result.
Proof. intros Ht Hs. unfold points_earned. now rewrite Ht, Hs. Qed.

(** Where phase 1 falls back to the weight, the mapper keeps 0. *)
Lemma points_earned_score_unparsed :
  Py.lower (AnswerType result) = "score_1_5" ->
  Py.int (AnswerGiven result) = None ->
  points_earned result = 0.
Proof. intros Ht Hs. unfold points_earned. now rewrite Ht, Hs. Qed.

Lemma points_earned_other :
  Py.lower (AnswerType result) <> "yes_no" ->
  Py.lower (AnswerType result) <> "score_1_5" ->
  points_earned result = 0.
Proof.
  intros H1 H2. unfold points_earned.
  destruct (String.eqb_spec (Py.lower (AnswerType result)) "yes_no"); [contradiction|].
  destruct (String.eqb_spec (Py.lower (AnswerType result)) "score_1_5"); [contradiction|].
  reflexivity.
Qed.

End Rescoring.

(** What the reference rules say, spelled out. *)
Lemma reference_score_rules (w : Z) (a : string) :
  Reference.score Reference.YesNo w "no" = Some w
  /\ Reference.score Reference.YesNo w "yes" = Some 0
  /\ (a <> "no" -> Reference.score Reference.YesNo w a = Some 0)
  /\ (forall s, Py.int a = Some s -> 1 <= s <= 5 ->
        Reference.score Reference.Score1to5 w a = Some ((5 - s) * w))
  /\ Reference.score Reference.Score1to5 w "1" = Some (4 * w)
  /\ Reference.score Reference.Score1to5 w "5" = Some 0
  /\ Reference.score Reference.Text w a = Some 0
  /\ Reference.score Reference.Unknown w a = Some 0.
Proof.
  repeat split; try reflexivity.
  - intros Ha. simpl. destruct (String.eqb_spec a "no"); [contradiction | reflexivity].
  - intros s Hs Hr. simpl. rewrite Hs.
    destruct (Z.leb_spec 1 s); [|lia]. destruct (Z.leb_spec s 5); [|lia]. reflexivity.
Qed.

(** C5.  Whenever the reference rules fix the risk points of an answer
    (YesNo: the weight for "no", 0 for "yes" and for anything else;
    Score1to5 with a parsed score between 1 and 5: (5 - score) * weight;
    Text and unrecognised types: 0), the scoring step of
    [calculate_risk_score] computes exactly that value. *)
Theorem points_refines_reference (result : Phase1.Result) (riskPoints : Z) :
  Reference.score (Reference.answerType_of (Phase1.AnswerType result))
                  (Phase1.RiskWeight result) (Phase1.AnswerGiven result)
  = Some riskPoints ->
  Phase1.points result = riskPoints.
Proof.
  unfold Reference.answerType_of, Phase1.points.
  destruct (String.eqb (Py.lower (Phase1.AnswerType result)) "yes_no").
  - simpl. destruct (String.eqb (Phase1.AnswerGiven result) "no"); congruence.
  - destruct (String.eqb (Py.lower (Phase1.AnswerType result)) "score_1_5").
    + simpl. destruct (Py.int (Phase1.AnswerGiven result)) as [s|]; [|discriminate].
      destruct ((1 <=? s) && (s <=? 5)); congruence.
    + destruct (String.eqb (Py.lower (Phase1.AnswerType result)) "text");
        simpl; congruence.
Qed.

Lemma points_refines_reference_witness :
  let result :=
    {| Phase1.QuestionID := "Q2"; Phase1.QuestionText := "Patch cadence";
       Phase1.AnswerType := "Score_1_5"; Phase1.RiskWeight := 7;
       Phase1.RiskArea := "Operations"; Phase1.AnswerGiven := "2" |} in
  Reference.score (Reference.answerType_of (Phase1.AnswerType result))
                  (Phase1.RiskWeight result) (Phase1.AnswerGiven result) = Some 21
  /\ Phase1.points result = 21.
Proof.
  intros result. split; [reflexivity|].
  apply (points_refines_reference result 21). reflexivity.
Defined.

(** C8.  The risk level written to the assessment report is the
    fixed-threshold classification: High above 50, Medium above 20 and up
    to 50, Low up to 20; in particular 51 is High, 50 and 21 are Medium,
    20 and 0 are Low. *)
Theorem risk_level_thresholds :
  (forall total_score : Z,
      Phase1.risk_level total_score = Reference.riskLevel total_score)
  /\ Phase1.risk_level 51 = "High"
  /\ Phase1.risk_level 50 = "Medium"
  /\ Phase1.risk_level 21 = "Medium"
  /\ Phase1.risk_level 20 = "Low"
  /\ Phase1.risk_level 0 = "Low".
Proof.
  split; [|repeat split; reflexivity].
  intros t. unfold Phase1.risk_level, Reference.riskLevel.
  destruct (Z.gtb_spec t 50), (Z.gtb_spec t 20);
    repeat case_decide; try reflexivity; lia.
Qed.

(** ** Writing an integer and reading it back *)

Section IntStr.

Import Py.
Import DecimalString.NilEmpty.

Lemma digit_not_underscore c d : digit c = Some d -> Ascii.eqb c "_" = false.
Proof.
  intros Hd. destruct (Ascii.eqb_spec c "_") as [->|]; [discriminate | reflexivity].
Qed.

Lemma int_digits_cons c d b acc s :
  digit c = Some d ->
  int_digits b acc (String c s) = int_digits true (10 * acc + d) s.
Proof.
  intros Hd. cbn [int_digits]. now rewrite (digit_not_underscore _ _ Hd), Hd.
Qed.

Lemma int_digits_acc d (acc : positive) :
  int_digits true (Zpos acc) (string_of_uint d)
  = Some (Zpos (Pos.of_uint_acc d acc)).
Proof.
  revert acc. induction d; intros acc; cbn [string_of_uint Pos.of_uint_acc];
    [reflexivity | ..];
    (erewrite int_digits_cons by reflexivity);
    match goal with
    | |- context [Z.of_nat (nat_of_ascii ?c) - 48] =>
        let k := eval vm_compute in (Z.of_nat (nat_of_ascii c) - 48) in
        change (Z.of_nat (nat_of_ascii c) - 48) with k
    end;
    match goal with
    | |- int_digits true ?z _ = Some (Zpos (Pos.of_uint_acc _ ?p)) =>
        replace z with (Zpos p) by lia
    end; apply IHd.
Qed.

Lemma int_digits_of_uint d b :
  d <> Decimal.Nil \/ b = true ->
  int_digits b 0 (string_of_uint d) = Some (Z.of_N (Pos.of_uint d)).
Proof.
  revert b. induction d; intros b Hb; cbn [string_of_uint Pos.of_uint].
  - destruct Hb as [Hb | ->]; [congruence | reflexivity].
  - erewrite int_digits_cons by reflexivity. apply IHd. now right.
  - erewrite int_digits_cons by reflexivity. apply (int_digits_acc d 1).
  - erewrite int_digits_cons by reflexivity. apply (int_digits_acc d 2).
  - erewrite int_digits_cons by reflexivity. apply (int_digits_acc d 3).
  - erewrite int_digits_cons by reflexivity. apply (int_digits_acc d 4).
  - erewrite int_digits_cons by reflexivity. apply (int_digits_acc d 5).
  - erewrite int_digits_cons by reflexivity. apply (int_digits_acc d 6).
  - erewrite int_digits_cons by reflexivity. apply (int_digits_acc d 7).
  - erewrite int_digits_cons by reflexivity. apply (int_digits_acc d 8).
  - erewrite int_digits_cons by reflexivity. apply (int_digits_acc d 9).
Qed.

Lemma lstrip_nonspace c s : isspace c = false -> lstrip (String c s) = String c s.
Proof. intros Hc. cbn [lstrip]. now rewrite Hc. Qed.

Lemma rstrip_cons_nonspace c s :
  isspace c = false -> rstrip (String c s) = String c (rstrip s).
Proof. intros Hc. cbn [rstrip]. destruct (rstrip s); [now rewrite Hc | reflexivity]. Qed.

Lemma int_lstrip_nonspace c s :
  int_isspace c = false -> int_lstrip (String c s) = String c s.
Proof. intros Hc. cbn [int_lstrip]. now rewrite Hc. Qed.

Lemma int_rstrip_cons_nonspace c s :
  int_isspace c = false -> int_rstrip (String c s) = String c (int_rstrip s).
Proof.
  intros Hc. cbn [int_rstrip]. destruct (int_rstrip s); [now rewrite Hc | reflexivity].
Qed.

Lemma int_rstrip_string_of_uint d :
  int_rstrip (string_of_uint d) = string_of_uint d.
Proof.
  induction d; cbn [string_of_uint]; [reflexivity | ..];
    (rewrite int_rstrip_cons_nonspace by reflexivity); now rewrite IHd.
Qed.

Lemma int_strip_string_of_uint d :
  int_rstrip (int_lstrip (string_of_uint d)) = string_of_uint d.
Proof.
  assert (int_lstrip (string_of_uint d) = string_of_uint d) as ->
    by (destruct d; cbn [string_of_uint]; [reflexivity | ..];
        now rewrite int_lstrip_nonspace).
  apply int_rstrip_string_of_uint.
Qed.

Lemma int_string_of_uint d :
  d <> Decimal.Nil -> int (string_of_uint d) = Some (Z.of_N (Pos.of_uint d)).
Proof.
  intros Hd. unfold int. rewrite int_strip_string_of_uint.
  rewrite <- (int_digits_of_uint d false) by now left.
  destruct d; [congruence | ..]; reflexivity.
Qed.

(** [int(str(n)) == n] *)
Lemma int_str (n : Z) : int (str n) = Some n.
Proof.
  destruct n as [|p|p]; [reflexivity | ..]; unfold str.
  - rewrite int_string_of_uint by apply DecimalPos.Unsigned.to_uint_nonnil.
    now rewrite DecimalPos.Unsigned.of_to.
  - unfold int. rewrite int_lstrip_nonspace by reflexivity.
    rewrite int_rstrip_cons_nonspace by reflexivity.
    rewrite int_rstrip_string_of_uint.
    change (Z.opp <$> int_digits false 0 (string_of_uint (Pos.to_uint p))
            = Some (Z.neg p)).
    rewrite int_digits_of_uint
      by (left; apply DecimalPos.Unsigned.to_uint_nonnil).
    now rewrite DecimalPos.Unsigned.of_to.
Qed.

End IntStr.

(** ** Phase 2 against phase 1 *)

Lemma risk_weight_csv_row (result : Phase1.Result) :
  Phase2.risk_weight (csv_row result) = Phase1.RiskWeight result.
Proof. unfold Phase2.risk_weight, csv_row. cbn. now rewrite int_str. Qed.

(** The mapper recomputes the points of phase 1 on every record except the
    Score1to5 answers that do not parse, where it keeps 0. *)
Lemma points_earned_csv_row (result : Phase1.Result) :
  Phase2.points_earned (csv_row result)
  = if String.eqb (Py.lower (Phase1.AnswerType result)) "score_1_5"
    then match Py.int (Phase1.AnswerGiven result) with
         | Some _ => Phase1.points result
         | None => 0
         end
    else Phase1.points result.
Proof.
  unfold Phase2.points_earned, Phase1.points.
  rewrite risk_weight_csv_row. cbn [csv_row Phase2.AnswerType Phase2.AnswerGiven].
  destruct (String.eqb_spec (Py.lower (Phase1.AnswerType result)) "score_1_5") as [->|];
    [|reflexivity].
  cbn. now destruct (Py.int (Phase1.AnswerGiven result)).
Qed.

Lemma phases_agree (result : Phase1.Result) :
  (Py.lower (Phase1.AnswerType result) = "score_1_5" ->
   is_Some (Py.int (Phase1.AnswerGiven result))) ->
  Phase2.points_earned (csv_row result) = Phase1.points result.
Proof.
  intros Hp. rewrite points_earned_csv_row.
  destruct (String.eqb_spec (Py.lower (Phase1.AnswerType result)) "score_1_5") as [Ht|];
    [|reflexivity].
  destruct (Hp Ht) as [s ->]. reflexivity.
Qed.

(** C1.  On the record (Q3, score_1_5, weight 3, answer "abc"), whose
    answer does not parse as an integer, [calculate_risk_score] counts 3
    risk points and [analyze_framework_impact] re-derives 0 from the row
    saved for it: the two phases do not agree there. *)
Theorem phases_disagree_on_unparseable :
  Py.int (Phase1.AnswerGiven Sample.unparseable) = None
  /\ Phase1.points Sample.unparseable = 3
  /\ Phase2.points_earned (csv_row Sample.unparseable) = 0
  /\ Phase1.points Sample.unparseable
     <> Phase2.points_earned (csv_row Sample.unparseable).
Proof. repeat split; try reflexivity. discriminate. Qed.

(** C2.  The row of (Q3, score_1_5, weight 3, answer "abc") is a Score1to5
    answer that does not parse.  Phase 1 charges it the full weight, 3; the
    mapper reads the same weight and sets 0 points. *)
Theorem unparseable_fallback_missing_in_phase2 :
  Py.lower (Phase1.AnswerType Sample.unparseable) = "score_1_5"
  /\ Py.int (Phase1.AnswerGiven Sample.unparseable) = None
  /\ Phase1.points Sample.unparseable = Phase1.RiskWeight Sample.unparseable
  /\ Phase2.risk_weight (csv_row Sample.unparseable) = 3
  /\ Phase2.points_earned (csv_row Sample.unparseable) = 0
  /\ Phase2.points_earned (csv_row Sample.unparseable)
     <> Phase2.risk_weight (csv_row Sample.unparseable).
Proof. repeat split; try reflexivity. discriminate. Qed.

(** ** Sign of the risk points *)

(** C3, as stated, fails: with weight 1 the Score1to5 answer "6" scores
    (5 - 6) * 1 = -1 in both phases. *)
Lemma above_scale_negative :
  0 <= Phase1.RiskWeight Sample.above_scale
  /\ Py.int (Phase1.AnswerGiven Sample.above_scale) = Some 6
  /\ ~ 0 <= Phase1.points Sample.above_scale
  /\ ~ 0 <= Phase2.points_earned (csv_row Sample.above_scale).
Proof.
  split; [discriminate|]. split; [reflexivity|].
  split; intros H; vm_compute in H; now apply H.
Qed.

(** C3, amended.  For a non-negative weight the risk points are
    non-negative in both phases on every answer type and answer, Score1to5
    answers that parse to a number above 5 excepted. *)
Theorem risk_points_nonnegative :
  (forall result : Phase1.Result,
      0 <= Phase1.RiskWeight result ->
      Reference.within_scale (Phase1.AnswerType result) (Phase1.AnswerGiven result) ->
      0 <= Phase1.points result)
  /\ (forall result : Phase2.Row,
      0 <= Phase2.risk_weight result ->
      Reference.within_scale (Phase2.AnswerType result) (Phase2.AnswerGiven result) ->
      0 <= Phase2.points_earned result).
Proof.
  split; intros result Hw Hs.
  - unfold Phase1.points.
    destruct (String.eqb (Py.lower (Phase1.AnswerType result)) "yes_no").
    { destruct (String.eqb (Phase1.AnswerGiven result) "no"); lia. }
    destruct (String.eqb_spec (Py.lower (Phase1.AnswerType result)) "score_1_5")
      as [Ht|]; [|lia].
    destruct (Py.int (Phase1.AnswerGiven result)) as [s|] eqn:Hi; [|lia].
    specialize (Hs s Ht Hi). nia.
  - unfold Phase2.points_earned.
    destruct (String.eqb (Py.lower (Phase2.AnswerType result)) "yes_no").
    { destruct (String.eqb (Phase2.AnswerGiven result) "no"); lia. }
    destruct (String.eqb_spec (Py.lower (Phase2.AnswerType result)) "score_1_5")
      as [Ht|]; [|lia].
    destruct (Py.int (Phase2.AnswerGiven result)) as [s|] eqn:Hi; [|lia].
    specialize (Hs s Ht Hi). nia.
Qed.

Lemma risk_points_nonnegative_witness :
  0 <= Phase1.points (Sample.result "Q5" "score_1_5" 4 "0")
  /\ 0 <= Phase2.points_earned (csv_row (Sample.result "Q5" "score_1_5" 4 "0")).
Proof.
  destruct risk_points_nonnegative as [H1 H2]. split.
  - apply H1; [cbn; lia|]. intros s _ Hs. vm_compute in Hs.
    injection Hs as <-. lia.
  - apply H2; [vm_compute; discriminate|]. intros s _ Hs. vm_compute in Hs.
    injection Hs as <-. lia.
Defined.

(** ** Aggregation *)

Section Aggregation.

Import Phase1.

Lemma foldl_accumulate_total rs acc :
  (foldl accumulate acc rs).1 = acc.1 + Reference.totalScore (List.map points rs).
Proof.
  revert acc. induction rs as [|r rs IH]; intros [t m]; cbn.
  - unfold Reference.totalScore. cbn. lia.
  - rewrite IH. unfold Reference.totalScore. cbn. lia.
Qed.

Lemma last_answer_cons q r rs :
  Reference.last_answer q (r :: rs)
  = match Reference.last_answer q rs with
    | Some r' => Some r'
    | None => if decide (QuestionID r = q) then Some r else None
    end.
Proof.
  unfold Reference.last_answer. rewrite filter_cons.
  case_decide; [|now destruct (last (filter (λ r0, QuestionID r0 = q) rs))].
  destruct (filter (λ r0, QuestionID r0 = q) rs) as [|r' rs'] eqn:E; [reflexivity|].
  rewrite last_cons. now destruct (last (r' :: rs')).
Qed.

Lemma foldl_accumulate_lookup rs acc q :
  (foldl accumulate acc rs).2 !! q
  = match Reference.last_answer q rs with
    | Some r => Some (points r)
    | None => acc.2 !! q
    end.
Proof.
  revert acc. induction rs as [|r rs IH]; intros [t m]; [reflexivity|].
  cbn [foldl]. rewrite IH, last_answer_cons.
  destruct (Reference.last_answer q rs); [reflexivity|]. cbn.
  case_decide as Hq.
  - subst q. apply lookup_insert_eq.
  - now apply lookup_insert_ne.
Qed.

End Aggregation.

(** C6.  [calculate_risk_score] returns as total the sum of the risk points
    of all answers of the sequence and a mapping that gives, for each
    question identifier, the points of the last answer carrying it (and
    nothing for identifiers that do not occur); on the empty sequence the
    total is 0 and the mapping is empty. *)
Theorem calculate_risk_score_spec (assessment_results : list Phase1.Result) :
  (Phase1.calculate_risk_score assessment_results).1
  = Reference.totalScore (List.map Phase1.points assessment_results)
  /\ (forall question_id : string,
        (Phase1.calculate_risk_score assessment_results).2 !! question_id
        = Phase1.points <$> Reference.last_answer question_id assessment_results)
  /\ Phase1.calculate_risk_score [] = (0, ∅).
Proof.
  unfold Phase1.calculate_risk_score. split; [|split; [|reflexivity]].
  - rewrite foldl_accumulate_total. cbn. lia.
  - intros q. rewrite foldl_accumulate_lookup. cbn.
    destruct (Reference.last_answer q assessment_results); [reflexivity | apply lookup_empty].
Qed.

(** ** The specification's two scenarios *)

Example scenario_no :
  Phase1.calculate_risk_score [Sample.yes_no_no] = (10, {["Q1" := 10]})
  /\ Phase1.risk_level 10 = "Low"
  /\ Phase2.analyze_framework_impact (Some Sample.catalog)
       (Some [csv_row Sample.yes_no_no])
     = Some {["ISO:A.9" := [Sample.finding_Q1]]}.
Proof. repeat split; vm_compute; reflexivity. Qed.

(** A repeated identifier: both answers count in the total, the later one
    stays in the mapping. *)
Example repeated_question :
  Phase1.calculate_risk_score [Sample.yes_no_no; Sample.yes_no_yes]
  = (10, {["Q1" := 0]}).
Proof. vm_compute. reflexivity. Qed.

(** The same control listed twice gives two findings under it. *)
Example repeated_control :
  Phase2.analyze_framework_impact
    (Some [Sample.question "Q1" "yes_no" "10" (Some "ISO:A.9;ISO:A.9")])
    (Some [csv_row Sample.yes_no_no])
  = Some {["ISO:A.9" := [Sample.finding_Q1; Sample.finding_Q1]]}.
Proof. vm_compute. reflexivity. Qed.

Example scenario_yes :
  Phase1.calculate_risk_score [Sample.yes_no_yes] = (0, {["Q1" := 0]})
  /\ Phase2.analyze_framework_impact (Some Sample.catalog)
       (Some [csv_row Sample.yes_no_yes])
     = Some ∅.
Proof. repeat split; vm_compute; reflexivity. Qed.

(** ** The mapper: appending findings *)

Section Appending.

Import Phase2.

Implicit Types (m : gmap string (list Finding)) (c : string) (fd : Finding).

Lemma append_finding_insert m c fd :
  append_finding m c fd = <[c := default [] (m !! c) ++ [fd]]> m.
Proof.
  unfold append_finding. destruct (m !! c) as [fs|] eqn:E.
  - now rewrite E.
  - rewrite lookup_insert_eq. cbn. apply insert_insert_eq.
Qed.

Lemma lookup_append_finding_eq m c fd :
  append_finding m c fd !! c = Some (default [] (m !! c) ++ [fd]).
Proof. rewrite append_finding_insert. apply lookup_insert_eq. Qed.

Lemma lookup_append_finding_ne m c c' fd :
  c <> c' -> append_finding m c fd !! c' = m !! c'.
Proof. intros Hc. rewrite append_finding_insert. now apply lookup_insert_ne. Qed.

Lemma findings_all_empty Q : findings_all Q ∅.
Proof. intros c fs H. now rewrite lookup_empty in H. Qed.

Lemma findings_all_append Q m c fd :
  Q fd -> findings_all Q m -> findings_all Q (append_finding m c fd).
Proof.
  intros Hfd Hm c' fs. destruct (decide (c = c')) as [<-|Hne].
  - rewrite lookup_append_finding_eq. intros [= <-]. split.
    + now destruct (default [] (m !! c)).
    + apply Forall_app. split; [|now constructor].
      destruct (m !! c) as [fs|] eqn:E; [apply (Hm c fs E) | constructor].
  - rewrite lookup_append_finding_ne by assumption. apply Hm.
Qed.

Lemma findings_all_append_all Q controls m fd :
  Q fd -> findings_all Q m -> findings_all Q (append_all m controls fd).
Proof.
  intros Hfd. revert m. unfold append_all.
  induction controls as [|c cs IH]; intros m Hm; [exact Hm|].
  cbn. apply IH. now apply findings_all_append.
Qed.

(** What one turn of the main loop does, by cases. *)
Lemma process_result_not_risky lookup m result :
  points_earned result <= 0 -> process_result lookup m result = m.
Proof.
  intros Hp. unfold process_result.
  destruct (Z.gtb_spec (points_earned result) 0); [lia | reflexivity].
Qed.

Lemma process_result_absent lookup m result :
  lookup !! QuestionID result = None -> process_result lookup m result = m.
Proof.
  intros Hl. unfold process_result. rewrite Hl.
  now destruct (points_earned result >? 0).
Qed.

Lemma process_result_risky lookup m result template_info :
  0 < points_earned result ->
  lookup !! QuestionID result = Some template_info ->
  process_result lookup m result
  = append_all m
      (relevant_controls
         (Py.strip (default EmptyString (q_RelevantFrameworkControl template_info))))
      (finding_details result template_info).
Proof.
  intros Hp Hl. unfold process_result. rewrite Hl.
  destruct (Z.gtb_spec (points_earned result) 0); [|lia].
  destruct (String.eqb_spec
              (Py.strip (default EmptyString (q_RelevantFrameworkControl template_info))) EmptyString)
    as [->|]; reflexivity.
Qed.

Lemma findings_all_process_result Q lookup m result :
  (forall template_info,
      0 < points_earned result ->
      lookup !! QuestionID result = Some template_info ->
      Q (finding_details result template_info)) ->
  findings_all Q m -> findings_all Q (process_result lookup m result).
Proof.
  intros HQ Hm.
  destruct (Z.le_gt_cases (points_earned result) 0) as [Hp|Hp].
  { now rewrite process_result_not_risky. }
  destruct (lookup !! QuestionID result) as [t|] eqn:Hl.
  - rewrite (process_result_risky _ _ _ t) by assumption.
    apply findings_all_append_all; [now apply HQ | assumption].
  - now rewrite process_result_absent.
Qed.

Lemma findings_all_loop Q lookup results m :
  (forall result template_info,
      result ∈ results ->
      0 < points_earned result ->
      lookup !! QuestionID result = Some template_info ->
      Q (finding_details result template_info)) ->
  findings_all Q m ->
  findings_all Q (foldl (process_result lookup) m results).
Proof.
  revert m. induction results as [|r rs IH]; intros m HQ Hm; [exact Hm|].
  cbn. apply IH.
  - intros r' t Hin. apply HQ. now right.
  - apply findings_all_process_result; [|assumption].
    intros t. apply HQ. now left.
Qed.

(** The guard of line 25. *)
Lemma analyze_framework_impact_nonempty q qs r rs :
  analyze_framework_impact (Some (q :: qs)) (Some (r :: rs))
  = Some (foldl (process_result (question_lookup (q :: qs))) ∅ (r :: rs)).
Proof. reflexivity. Qed.

Lemma analyze_framework_impact_Some template_questions assessment_results m :
  analyze_framework_impact template_questions assessment_results = Some m ->
  exists qs rs,
    template_questions = Some qs /\ assessment_results = Some rs
    /\ qs <> [] /\ rs <> []
    /\ m = foldl (process_result (question_lookup qs)) ∅ rs.
Proof.
  destruct template_questions as [[|q qs]|], assessment_results as [[|r rs]|];
    try discriminate.
  rewrite analyze_framework_impact_nonempty. intros [= <-].
  exists (q :: qs), (r :: rs). repeat split; congruence.
Qed.

End Appending.

Section Catalog.

Import Phase2.

Lemma question_lookup_foldl_absent (template_questions : list Question)
    (lookup : gmap string Question) (q_id : string) :
  (forall q, q ∈ template_questions -> q_QuestionID q <> q_id) ->
  foldl (fun lookup q => <[q_QuestionID q := q]> lookup) lookup template_questions
    !! q_id
  = lookup !! q_id.
Proof.
  revert lookup. induction template_questions as [|q qs IH]; intros lookup Hq;
    [reflexivity|].
  cbn. rewrite IH by (intros q' Hin; apply Hq; now right).
  apply lookup_insert_ne, Hq. now left.
Qed.

Lemma question_lookup_absent template_questions (q_id : string) :
  (forall q, q ∈ template_questions -> q_QuestionID q <> q_id) ->
  question_lookup template_questions !! q_id = None.
Proof.
  intros Hq. unfold question_lookup.
  rewrite question_lookup_foldl_absent by assumption. apply lookup_empty.
Qed.

End Catalog.

(** ** Splitting a control column *)

Section Controls.

Import Py.








Lemma lstrip_idemp s : lstrip (lstrip s) = lstrip s.
Proof.
  induction s as [|c s IH]; [reflexivity|]. cbn.
  destruct (isspace c) eqn:Hc; [exact IH|]. cbn. now rewrite Hc.
Qed.

Lemma rstrip_idemp s : rstrip (rstrip s) = rstrip s.
Proof.
  induction s as [|c s IH]; [reflexivity|]. cbn.
  destruct (rstrip s) as [|c' r] eqn:Hr.
  - destruct (isspace c) eqn:Hc; [reflexivity|]. cbn. now rewrite Hc.
  - cbn [rstrip] in IH |- *. now rewrite IH.
Qed.

Lemma lstrip_rstrip s : lstrip (rstrip s) = rstrip (lstrip s).
Proof.
  induction s as [|c s IH]; [reflexivity|].
  destruct (isspace c) eqn:Hc.
  - cbn [lstrip]. rewrite Hc, <- IH. cbn [rstrip].
    destruct (rstrip s) as [|c' r]; [now rewrite Hc|].
    cbn [lstrip]. now rewrite Hc.
  - rewrite lstrip_nonspace, !rstrip_cons_nonspace by assumption.
    now rewrite lstrip_nonspace.
Qed.



Lemma contains_lstrip c s : contains c s = false -> contains c (lstrip s) = false.
Proof.
  induction s as [|c' s IH]; [trivial|]. cbn [lstrip].
  destruct (isspace c'); [|trivial]. cbn. intros [_ Hs]%orb_false_iff. auto.
Qed.

Lemma contains_rstrip c s : contains c s = false -> contains c (rstrip s) = false.
Proof.
  induction s as [|c' s IH]; [trivial|]. cbn.
  intros [Hc Hs]%orb_false_iff. specialize (IH Hs).
  destruct (rstrip s).
  - destruct (isspace c'); [reflexivity|]. cbn. now rewrite Hc.
  - cbn in IH |- *. now rewrite Hc.
Qed.



End Controls.

(** ** The mapper: claims *)

(** C7.  In the map returned by [analyze_framework_impact] every control
    has at least one finding, and every finding has RiskPoints > 0 and is
    the snapshot of an answer of the input whose recomputed points are that
    positive value; answers with 0 points never reach the map. *)
Theorem mapped_findings_are_risky
    (template_questions : list Phase2.Question)
    (assessment_results : list Phase2.Row)
    (framework_findings : gmap string (list Phase2.Finding)) :
  Phase2.analyze_framework_impact (Some template_questions) (Some assessment_results)
  = Some framework_findings ->
  forall (control : string) (findings : list Phase2.Finding),
    framework_findings !! control = Some findings ->
    findings <> []
    /\ forall finding, finding ∈ findings ->
         0 < Phase2.f_RiskPoints finding
         /\ exists result,
             result ∈ assessment_results
             /\ Phase2.f_QuestionID finding = Phase2.QuestionID result
             /\ Phase2.f_AnswerGiven finding = Phase2.AnswerGiven result
             /\ Phase2.f_RiskPoints finding = Phase2.points_earned result.
Proof.
  intros Ha control findings Hl.
  apply analyze_framework_impact_Some in Ha
    as (qs & rs & [= <-] & [= <-] & _ & _ & ->).
  set (Q := fun finding =>
              0 < Phase2.f_RiskPoints finding
              /\ exists result,
                  result ∈ assessment_results
                  /\ Phase2.f_QuestionID finding = Phase2.QuestionID result
                  /\ Phase2.f_AnswerGiven finding = Phase2.AnswerGiven result
                  /\ Phase2.f_RiskPoints finding = Phase2.points_earned result).
  assert (Phase2.findings_all Q
            (foldl (Phase2.process_result (Phase2.question_lookup template_questions))
                   ∅ assessment_results)) as Hall.
  { apply findings_all_loop; [|apply findings_all_empty].
    intros result t Hin Hp _. split; [exact Hp|].
    exists result. repeat split; assumption. }
  destruct (Hall control findings Hl) as [Hne HQ]. split; [exact Hne|].
  intros finding Hin. rewrite Forall_forall in HQ. now apply HQ.
Qed.

Lemma mapped_findings_are_risky_witness :
  let rows := [csv_row Sample.yes_no_yes; csv_row Sample.yes_no_no] in
  Phase2.analyze_framework_impact (Some Sample.catalog) (Some rows)
  = Some {["ISO:A.9" := [Sample.finding_Q1]]}
  /\ [Sample.finding_Q1] <> []
  /\ forall finding, finding ∈ [Sample.finding_Q1] ->
       0 < Phase2.f_RiskPoints finding
       /\ exists result,
           result ∈ rows
           /\ Phase2.f_QuestionID finding = Phase2.QuestionID result
           /\ Phase2.f_AnswerGiven finding = Phase2.AnswerGiven result
           /\ Phase2.f_RiskPoints finding = Phase2.points_earned result.
Proof.
  intros rows. split; [reflexivity|].
  apply (mapped_findings_are_risky Sample.catalog rows
           {["ISO:A.9" := [Sample.finding_Q1]]} eq_refl "ISO:A.9").
  reflexivity.
Defined.




(** * Further properties of the code *)

(** ** Normalised input lines *)

Section Normalised.

Import Py.

Lemma isspace_lower_char c : isspace (lower_char c) = isspace c.
Proof. destruct c as [[] [] [] [] [] [] [] []]; reflexivity. Qed.

Lemma lower_char_idemp c : lower_char (lower_char c) = lower_char c.
Proof. destruct c as [[] [] [] [] [] [] [] []]; reflexivity. Qed.

Lemma lower_idemp s : lower (lower s) = lower s.
Proof.
  induction s as [|c s IH]; [reflexivity|]. cbn. now rewrite lower_char_idemp, IH.
Qed.

Lemma lstrip_lower s : lstrip (lower s) = lower (lstrip s).
Proof.
  induction s as [|c s IH]; [reflexivity|]. cbn. rewrite isspace_lower_char.
  now destruct (isspace c).
Qed.

Lemma rstrip_lower s : rstrip (lower s) = lower (rstrip s).
Proof.
  induction s as [|c s IH]; [reflexivity|]. cbn. rewrite IH, isspace_lower_char.
  destruct (rstrip s); cbn; [now destruct (isspace c) | reflexivity].
Qed.

Lemma strip_lower s : strip (lower s) = lower (strip s).
Proof. unfold strip. now rewrite lstrip_lower, rstrip_lower. Qed.

Lemma strip_idemp s : strip (strip s) = strip s.
Proof. unfold strip. now rewrite lstrip_rstrip, rstrip_idemp, lstrip_idemp. Qed.

(** A line as [get_validated_input] reads it is a fixed point of both
    [strip] and [lower]. *)
Lemma normalised_fixed line :
  strip (lower (strip line)) = lower (strip line)
  /\ lower (lower (strip line)) = lower (strip line).
Proof. split; [now rewrite strip_lower, strip_idemp | apply lower_idemp]. Qed.

End Normalised.

(** ** Collecting one answer *)

Section Prompting.

Import Collect.

Variable question : Question.

Lemma get_validated_input_skips lines unread :
  Forall (rejected question) lines ->
  get_validated_input question (lines ++ unread)
  = get_validated_input question unread.
Proof.
  induction 1 as [|line lines Hr _ IH]; [reflexivity|].
  cbn. unfold rejected in Hr. now rewrite Hr.
Qed.

Lemma get_validated_input_Returned inputs answer unread :
  get_validated_input question inputs = Returned answer unread ->
  exists lines line,
    inputs = lines ++ line :: unread
    /\ Forall (rejected question) lines
    /\ validate question (Py.lower (Py.strip line)) = Some answer.
Proof.
  induction inputs as [|l inputs IH]; [discriminate|]. cbn.
  destruct (validate question (Py.lower (Py.strip l))) as [a|] eqn:Hv.
  - intros [= <- <-]. exists [], l. repeat split; [constructor | assumption].
  - intros (lines & line & -> & Hrej & Hok)%IH.
    exists (l :: lines), line. repeat split; [|assumption]. now constructor.
Qed.

Lemma get_validated_input_EndOfInput inputs :
  get_validated_input question inputs = EndOfInput <-> Forall (rejected question) inputs.
Proof.
  induction inputs as [|l inputs IH]; [easy|]. cbn.
  destruct (validate question (Py.lower (Py.strip l))) as [a|] eqn:Hv.
  - split; [discriminate|]. intros H. inversion H as [|? ? Hr]; subst.
    unfold rejected in Hr. congruence.
  - rewrite IH. split; [now constructor | now inversion 1].
Qed.

Lemma in_list_spec x xs : in_list x xs = true <-> x ∈ xs.
Proof.
  unfold in_list. rewrite existsb_exists. split.
  - intros (y & Hy & ->%String.eqb_eq). now apply list_elem_of_In.
  - intros Hx. exists x. split; [now apply list_elem_of_In | apply String.eqb_refl].
Qed.

Lemma validate_yes_no user_input answer :
  Py.lower (AnswerType question) = "yes_no" ->
  validate question user_input = Some answer ->
  (answer = "yes" /\ (user_input = "yes" \/ user_input = "y"))
  \/ (answer = "no" /\ (user_input = "no" \/ user_input = "n")).
Proof.
  intros Ht. unfold validate. rewrite Ht. cbn [String.eqb Ascii.eqb Bool.eqb].
  destruct (in_list user_input ["yes"; "no"; "y"; "n"]) eqn:Hin; [|discriminate].
  apply in_list_spec in Hin.
  destruct (in_list user_input ["yes"; "y"]) eqn:Hy; intros [= <-].
  - left. split; [reflexivity|]. apply in_list_spec in Hy.
    repeat (apply elem_of_cons in Hy as [Hy|Hy]; [now auto|]).
    now apply elem_of_nil in Hy.
  - right. split; [reflexivity|].
    assert (~ user_input ∈ ["yes"; "y"]) as Hn
        by (rewrite <- in_list_spec; congruence).
    repeat (apply elem_of_cons in Hin as [Hin|Hin];
            [first [now auto | subst; exfalso; apply Hn; repeat constructor]|]).
    now apply elem_of_nil in Hin.
Qed.

Lemma validate_score user_input answer :
  Py.lower (AnswerType question) = "score_1_5" ->
  validate question user_input = Some answer ->
  exists score, Py.int user_input = Some score /\ 1 <= score <= 5
                /\ answer = Py.str score.
Proof.
  intros Ht. unfold validate. rewrite Ht. cbn [String.eqb Ascii.eqb Bool.eqb].
  destruct (Py.int user_input) as [score|]; [|discriminate].
  destruct (Z.leb_spec 1 score), (Z.leb_spec score 5); try discriminate.
  intros [= <-]. exists score. repeat split; assumption.
Qed.

Lemma validate_text user_input answer :
  Py.lower (AnswerType question) = "text" ->
  validate question user_input = Some answer ->
  answer = user_input /\ user_input <> EmptyString.
Proof.
  intros Ht. unfold validate. rewrite Ht. cbn [String.eqb Ascii.eqb Bool.eqb].
  destruct (String.eqb_spec user_input EmptyString); [discriminate|].
  intros [= <-]. split; [reflexivity | assumption].
Qed.

End Prompting.

(** X1.  [get_validated_input] returns exactly when some line validates:
    the answer comes from the first such line, every line before it was
    rejected and every line after it is left unread; it runs out of input
    exactly when every line is rejected. *)
Theorem get_validated_input_first_valid
    (question : Collect.Question) (inputs : list string) :
  (forall answer unread,
      Collect.get_validated_input question inputs = Collect.Returned answer unread
      <-> exists lines line,
            inputs = lines ++ line :: unread
            /\ Forall (Collect.rejected question) lines
            /\ Collect.validate question (Py.lower (Py.strip line)) = Some answer)
  /\ (Collect.get_validated_input question inputs = Collect.EndOfInput
      <-> Forall (Collect.rejected question) inputs).
Proof.
  split; [|apply get_validated_input_EndOfInput].
  intros answer unread. split; [apply get_validated_input_Returned|].
  intros (lines & line & -> & Hrej & Hok).
  rewrite get_validated_input_skips by assumption. cbn. now rewrite Hok.
Qed.

Lemma get_validated_input_first_valid_witness :
  Collect.get_validated_input
    {| Collect.QuestionID := "Q1"; Collect.QuestionText := "MFA enforced?";
       Collect.AnswerType := "Yes_No"; Collect.RiskWeight := 10;
       Collect.RiskArea := "Access" |}
    ["maybe"; "  N "; "4"]
  = Collect.Returned "no" ["4"].
Proof.
  apply get_validated_input_first_valid.
  exists ["maybe"], "  N ". split; [reflexivity|]. split; [|reflexivity].
  repeat constructor.
Defined.

(** X2.  An answer collected for a yes/no question is "yes" or "no" and
    nothing else; scored, "yes" gives 0 points and "no" gives the weight. *)
Theorem collected_yes_no
    (question : Collect.Question) (inputs unread : list string) (answer : string) :
  Py.lower (Collect.AnswerType question) = "yes_no" ->
  Collect.get_validated_input question inputs = Collect.Returned answer unread ->
  (answer = "yes" /\ Phase1.points (Collect.answered question answer) = 0)
  \/ (answer = "no"
      /\ Phase1.points (Collect.answered question answer)
         = Collect.RiskWeight question).
Proof.
  intros Ht (lines & line & _ & _ & Hv)%get_validated_input_Returned.
  destruct (validate_yes_no _ _ _ Ht Hv) as [[-> _] | [-> _]]; [left | right];
    (split; [reflexivity|]); now rewrite points_yes_no.
Qed.

Lemma collected_yes_no_witness :
  Phase1.points
    (Collect.answered
       {| Collect.QuestionID := "Q1"; Collect.QuestionText := "MFA enforced?";
          Collect.AnswerType := "yes_no"; Collect.RiskWeight := 10;
          Collect.RiskArea := "Access" |} "no") = 10.
Proof.
  destruct (collected_yes_no
              {| Collect.QuestionID := "Q1"; Collect.QuestionText := "MFA enforced?";
                 Collect.AnswerType := "yes_no"; Collect.RiskWeight := 10;
                 Collect.RiskArea := "Access" |}
              ["nope"; "N"] [] "no" eq_refl eq_refl) as [[H _] | [_ H]];
    [discriminate H | exact H].
Defined.

(** X3.  An answer collected for a 1-to-5 question is the decimal numeral
    of an integer between 1 and 5, which [int] reads back; scored, it
    gives (5 - score) * weight, never the unparseable fallback. *)
Theorem collected_score
    (question : Collect.Question) (inputs unread : list string) (answer : string) :
  Py.lower (Collect.AnswerType question) = "score_1_5" ->
  Collect.get_validated_input question inputs = Collect.Returned answer unread ->
  exists score : Z,
    1 <= score <= 5
    /\ answer = Py.str score
    /\ Py.int answer = Some score
    /\ Phase1.points (Collect.answered question answer)
       = (5 - score) * Collect.RiskWeight question.
Proof.
  intros Ht (lines & line & _ & _ & Hv)%get_validated_input_Returned.
  destruct (validate_score _ _ _ Ht Hv) as (score & _ & Hr & ->).
  exists score. repeat split; try apply Hr; [apply int_str|].
  apply points_score_parsed; [exact Ht | apply int_str].
Qed.

Lemma collected_score_witness :
  exists score : Z,
    1 <= score <= 5 /\ "2" = Py.str score /\ Py.int "2" = Some score
    /\ Phase1.points
         (Collect.answered
            {| Collect.QuestionID := "Q2"; Collect.QuestionText := "Patching";
               Collect.AnswerType := "score_1_5"; Collect.RiskWeight := 7;
               Collect.RiskArea := "Operations" |} "2")
       = (5 - score) * 7.
Proof.
  apply (collected_score
           {| Collect.QuestionID := "Q2"; Collect.QuestionText := "Patching";
              Collect.AnswerType := "score_1_5"; Collect.RiskWeight := 7;
              Collect.RiskArea := "Operations" |}
           ["9"; "two"; " +02 "; "3"] ["3"] "2"); reflexivity.
Defined.

(** X4.  An answer collected for a text question is not empty and is the
    stripped, lower-cased form of the line typed: the case of the input
    is not kept.  It scores 0. *)
Theorem collected_text
    (question : Collect.Question) (inputs unread : list string) (answer : string) :
  Py.lower (Collect.AnswerType question) = "text" ->
  Collect.get_validated_input question inputs = Collect.Returned answer unread ->
  answer <> EmptyString
  /\ (exists line, line ∈ inputs /\ answer = Py.lower (Py.strip line))
  /\ Py.lower answer = answer
  /\ Py.strip answer = answer
  /\ Phase1.points (Collect.answered question answer) = 0.
Proof.
  intros Ht (lines & line & -> & _ & Hv)%get_validated_input_Returned.
  destruct (validate_text _ _ _ Ht Hv) as [-> Hne].
  destruct (normalised_fixed line) as [Hs Hl].
  repeat split; try assumption.
  - exists line. split; [|reflexivity]. apply elem_of_app. right. now left.
  - apply points_other; cbn; rewrite Ht; discriminate.
Qed.

Lemma collected_text_witness :
  "see soc 2 report" <> EmptyString
  /\ Py.lower "see soc 2 report" = "see soc 2 report".
Proof.
  destruct (collected_text
              {| Collect.QuestionID := "Q9"; Collect.QuestionText := "Notes";
                 Collect.AnswerType := "Text"; Collect.RiskWeight := 0;
                 Collect.RiskArea := "General" |}
              ["   "; " See SOC 2 Report "] [] "see soc 2 report" eq_refl eq_refl)
    as (Hne & _ & Hl & _).
  split; assumption.
Defined.

(** ** Collecting a whole assessment *)

Section Conducting.

Import Collect.

Lemma ask_all_Returned questions inputs results unread :
  ask_all questions inputs = Returned results unread ->
  Forall2 collected questions results.
Proof.
  revert inputs results unread.
  induction questions as [|q qs IH]; intros inputs results unread; cbn.
  - intros [= <- <-]. constructor.
  - destruct (get_validated_input q inputs) as [a un|] eqn:Ha; [|discriminate].
    destruct (ask_all qs un) as [rs un'|] eqn:Hrs; [|discriminate].
    intros [= <- <-]. constructor; [|now apply (IH un rs un')].
    exists inputs, un. split; [exact Ha | reflexivity].
Qed.

Lemma conduct_assessment_Some questions inputs vendor_name results unread :
  conduct_assessment questions inputs
  = Returned (Some (vendor_name, results)) unread ->
  exists qs line unread0,
    questions = Some qs /\ qs <> []
    /\ inputs = line :: unread0
    /\ vendor_name = Py.strip line /\ vendor_name <> EmptyString
    /\ ask_all qs unread0 = Returned results unread.
Proof.
  unfold conduct_assessment.
  destruct questions as [[|q qs]|]; cbn [Phase2.truthy negb]; try discriminate.
  destruct inputs as [|line unread0]; [discriminate|].
  destruct (String.eqb_spec (Py.strip line) EmptyString) as [|Hne]; [discriminate|].
  cbn [default from_option id].
  destruct (ask_all (q :: qs) unread0) as [rs un|] eqn:Hrs; [|discriminate].
  intros [= <- <- <-].
  exists (q :: qs), line, unread0. repeat split; congruence.
Qed.

(** Every column of a collected result but the answer is the question's. *)
Lemma collected_columns question result :
  collected question result ->
  Phase1.QuestionID result = QuestionID question
  /\ Phase1.QuestionText result = QuestionText question
  /\ Phase1.AnswerType result = AnswerType question
  /\ Phase1.RiskWeight result = RiskWeight question
  /\ Phase1.RiskArea result = RiskArea question.
Proof. intros (ins & un & _ & ->). repeat split. Qed.

(** A collected answer to a 1-to-5 question reads back as its score. *)
Lemma collected_parses question result :
  collected question result ->
  Py.lower (Phase1.AnswerType result) = "score_1_5" ->
  exists score, 1 <= score <= 5 /\ Py.int (Phase1.AnswerGiven result) = Some score.
Proof.
  intros Hc Ht. destruct (collected_columns _ _ Hc) as (_ & _ & Hty & _).
  destruct Hc as (ins & un & Hg & _). rewrite Hty in Ht.
  apply get_validated_input_Returned in Hg as (lines & line & _ & _ & Hv).
  destruct (validate_score _ _ _ Ht Hv) as (score & _ & Hr & ->).
  exists score. split; [exact Hr | apply int_str].
Qed.

Lemma collected_points_bounds question result :
  collected question result ->
  0 <= RiskWeight question ->
  0 <= Phase1.points result <= 4 * RiskWeight question.
Proof.
  intros Hc Hw. destruct (collected_columns _ _ Hc) as (_ & _ & _ & Hwt & _).
  rewrite <- Hwt in *. unfold Phase1.points.
  destruct (String.eqb (Py.lower (Phase1.AnswerType result)) "yes_no").
  { destruct (String.eqb (Phase1.AnswerGiven result) "no"); lia. }
  destruct (String.eqb_spec (Py.lower (Phase1.AnswerType result)) "score_1_5")
    as [Ht|]; [|lia].
  destruct (collected_parses _ _ Hc Ht) as (score & Hr & ->). nia.
Qed.

Lemma Forall2_collected_unzip questions results :
  Forall2 collected questions results ->
  List.map Phase1.QuestionID results = List.map QuestionID questions
  /\ List.map Phase1.RiskWeight results = List.map RiskWeight questions.
Proof.
  induction 1 as [|q r qs rs Hc _ [IH1 IH2]]; [split; reflexivity|].
  destruct (collected_columns _ _ Hc) as (Hid & _ & _ & Hw & _).
  cbn. now rewrite Hid, Hw, IH1, IH2.
Qed.

End Conducting.

Lemma Forall2_elem_of_r {A B} (P : A -> B -> Prop) (xs : list A) (ys : list B) y :
  Forall2 P xs ys -> y ∈ ys -> exists x, x ∈ xs /\ P x y.
Proof.
  induction 1 as [|x y' xs ys HP _ IH]; intros Hy.
  - now apply elem_of_nil in Hy.
  - apply elem_of_cons in Hy as [-> | Hy].
    + exists x. split; [now left | assumption].
    + destruct (IH Hy) as (x' & Hx' & HP'). exists x'. split; [now right | assumption].
Qed.

(** X5.  When [conduct_assessment] completes, the vendor name is the
    first line stripped and is not empty, and there is exactly one result
    per question, in the order of the questionnaire, carrying the
    question's identifier, text, type, weight and area together with an
    answer that [get_validated_input] returned for that question. *)
Theorem conduct_assessment_results
    (questions : list Collect.Question) (inputs unread : list string)
    (vendor_name : string) (results : list Phase1.Result) :
  Collect.conduct_assessment (Some questions) inputs
  = Collect.Returned (Some (vendor_name, results)) unread ->
  vendor_name <> EmptyString
  /\ (exists line, head inputs = Some line /\ vendor_name = Py.strip line)
  /\ Forall2 Collect.collected questions results
  /\ length results = length questions
  /\ List.map Phase1.QuestionID results = List.map Collect.QuestionID questions
  /\ List.map Phase1.RiskWeight results = List.map Collect.RiskWeight questions
  /\ results <> [].
Proof.
  intros (qs & line & unread0 & [= <-] & Hne & -> & -> & Hv & Hask)
           %conduct_assessment_Some.
  apply ask_all_Returned in Hask.
  destruct (Forall2_collected_unzip _ _ Hask) as [Hids Hws].
  repeat split; try assumption.
  - exists line. split; reflexivity.
  - symmetry. eapply Forall2_length, Hask.
  - intros ->. apply Forall2_length in Hask. now destruct questions.
Qed.

Lemma conduct_assessment_results_witness :
  Forall2 Collect.collected (default [] Demo.questionnaire) Demo.results
  /\ length Demo.results = 3%nat.
Proof.
  destruct (conduct_assessment_results (default [] Demo.questionnaire)
              Demo.typed [] "Acme Corp" Demo.results eq_refl)
    as (_ & _ & Hall & Hlen & _).
  split; [exact Hall | exact Hlen].
Defined.

(** X6.  On the results of a completed [conduct_assessment], written to
    the data file and read back, the mapper recomputes for every answer
    exactly the risk points that [calculate_risk_score] counted. *)
Theorem collected_phases_agree
    (questions : list Collect.Question) (inputs unread : list string)
    (vendor_name : string) (results : list Phase1.Result) :
  Collect.conduct_assessment (Some questions) inputs
  = Collect.Returned (Some (vendor_name, results)) unread ->
  forall result, result ∈ results ->
    Phase2.points_earned (csv_row result) = Phase1.points result.
Proof.
  intros (qs & line & unread0 & [= <-] & _ & _ & _ & _ & Hask)
           %conduct_assessment_Some result Hin.
  apply ask_all_Returned in Hask.
  destruct (Forall2_elem_of_r _ _ _ _ Hask Hin) as (q & _ & Hc).
  apply phases_agree. intros Ht.
  destruct (collected_parses _ _ Hc Ht) as (score & _ & ->). now eexists.
Qed.

Lemma collected_phases_agree_witness :
  Forall (fun result => Phase2.points_earned (csv_row result) = Phase1.points result)
         Demo.results.
Proof.
  apply Forall_forall.
  exact (collected_phases_agree (default [] Demo.questionnaire)
           Demo.typed [] "Acme Corp" Demo.results eq_refl).
Defined.

Lemma total_bounds questions results :
  Forall2 (fun q r => 0 <= Phase1.points r <= 4 * Collect.RiskWeight q)
          questions results ->
  0 <= Reference.totalScore (List.map Phase1.points results)
    <= 4 * Reference.totalScore (List.map Collect.RiskWeight questions).
Proof.
  unfold Reference.totalScore.
  induction 1 as [|q r qs rs Hqr _ IH]; cbn; lia.
Qed.

(** X7.  If no question has a negative weight, then after a completed
    [conduct_assessment] every answer scores between 0 and 4 times its
    weight, and the total risk score lies between 0 and 4 times the sum of
    the weights. *)
Theorem collected_score_bounds
    (questions : list Collect.Question) (inputs unread : list string)
    (vendor_name : string) (results : list Phase1.Result) :
  Collect.conduct_assessment (Some questions) inputs
  = Collect.Returned (Some (vendor_name, results)) unread ->
  Forall (fun question => 0 <= Collect.RiskWeight question) questions ->
  (forall result, result ∈ results ->
     0 <= Phase1.points result <= 4 * Phase1.RiskWeight result)
  /\ 0 <= (Phase1.calculate_risk_score results).1
       <= 4 * Reference.totalScore (List.map Collect.RiskWeight questions).
Proof.
  intros (qs & line & unread0 & [= <-] & _ & _ & _ & _ & Hask)
           %conduct_assessment_Some Hw.
  apply ask_all_Returned in Hask.
  assert (Forall2 (fun q r => 0 <= Phase1.points r <= 4 * Collect.RiskWeight q)
                  questions results) as Hb.
  { clear -Hask Hw. induction Hask as [|q r qs rs Hc _ IH]; [constructor|].
    inversion Hw; subst. constructor; [now apply collected_points_bounds | auto]. }
  split.
  - intros result Hin.
    destruct (Forall2_elem_of_r _ _ _ _ Hask Hin) as (q & Hq & Hc).
    destruct (collected_columns _ _ Hc) as (_ & _ & _ & -> & _).
    apply collected_points_bounds; [assumption|].
    rewrite Forall_forall in Hw. now apply Hw.
  - unfold Phase1.calculate_risk_score. rewrite foldl_accumulate_total. cbn [fst].
    rewrite Z.add_0_l. now apply total_bounds.
Qed.

Lemma collected_score_bounds_witness :
  0 <= (Phase1.calculate_risk_score Demo.results).1 <= 4 * 17.
Proof.
  refine (proj2 (collected_score_bounds (default [] Demo.questionnaire)
                   Demo.typed [] "Acme Corp" Demo.results eq_refl _)).
  repeat constructor; discriminate.
Defined.

(** ** The data file between the phases *)

(** X8.  The weight that phase 1 writes to the data file is the weight
    that the mapper reads back, whatever its sign: the conversion of lines
    43-46 never falls to its default on a file written by phase 1. *)
Theorem saved_weight_read_back (result : Phase1.Result) :
  Py.int (Phase2.RiskWeight (csv_row result)) = Some (Phase1.RiskWeight result)
  /\ Phase2.risk_weight (csv_row result) = Phase1.RiskWeight result.
Proof. split; [apply int_str | apply risk_weight_csv_row]. Qed.

(** X9.  The mapper's recomputed points differ from the points of
    [calculate_risk_score] on exactly one kind of record: a 1-to-5 answer
    that does not parse as an integer, on a question of non-zero weight. *)
Theorem rescoring_differs_iff (result : Phase1.Result) :
  Phase2.points_earned (csv_row result) <> Phase1.points result
  <-> Py.lower (Phase1.AnswerType result) = "score_1_5"
      /\ Py.int (Phase1.AnswerGiven result) = None
      /\ Phase1.RiskWeight result <> 0.
Proof.
  rewrite points_earned_csv_row.
  destruct (String.eqb_spec (Py.lower (Phase1.AnswerType result)) "score_1_5")
    as [Ht|Ht].
  - destruct (Py.int (Phase1.AnswerGiven result)) as [score|] eqn:Hi.
    + split; [congruence | now intros (_ & ? & _)].
    + rewrite (points_score_unparsed _ Ht Hi). split.
      * intros Hne. repeat split; congruence.
      * intros (_ & _ & Hne). congruence.
  - split; [congruence | now intros (? & _)].
Qed.

Lemma rescoring_differs_iff_witness :
  Phase2.points_earned (csv_row Sample.unparseable)
  <> Phase1.points Sample.unparseable.
Proof.
  apply rescoring_differs_iff. repeat split. discriminate.
Defined.


(** ** More on the aggregation *)

Section Totals.

Import Phase1.

Lemma totalScore_app xs ys :
  Reference.totalScore (xs ++ ys)
  = Reference.totalScore xs + Reference.totalScore ys.
Proof.
  unfold Reference.totalScore. induction xs as [|x xs IH]; cbn; lia.
Qed.

Lemma totalScore_Permutation xs ys :
  xs ≡ₚ ys -> Reference.totalScore xs = Reference.totalScore ys.
Proof.
  unfold Reference.totalScore.
  induction 1 as [|x xs ys _ IH|x y xs|xs ys zs _ IH1 _ IH2]; cbn; lia.
Qed.

Lemma calculate_risk_score_total rs :
  (calculate_risk_score rs).1 = Reference.totalScore (List.map points rs).
Proof.
  unfold calculate_risk_score. rewrite foldl_accumulate_total. cbn. lia.
Qed.

Lemma score_sum_insert (m : gmap string Z) k p :
  m !! k = None -> Derived.score_sum (<[k := p]> m) = p + Derived.score_sum m.
Proof.
  intros Hk. unfold Derived.score_sum.
  apply (map_fold_insert_L (fun _ points acc => points + acc)); [|exact Hk].
  intros. lia.
Qed.

Lemma foldl_accumulate_distinct rs acc :
  NoDup (List.map QuestionID rs) ->
  (forall r, r ∈ rs -> acc.2 !! QuestionID r = None) ->
  Derived.score_sum (foldl accumulate acc rs).2
  = Derived.score_sum acc.2 + Reference.totalScore (List.map points rs)
  /\ size (foldl accumulate acc rs).2 = (size acc.2 + length rs)%nat.
Proof.
  revert acc. induction rs as [|r rs IH]; intros [t m] Hnd Hfresh.
  - cbn. unfold Reference.totalScore. cbn. split; lia.
  - cbn [List.map] in Hnd. apply NoDup_cons in Hnd as [Hr Hnd].
    cbn [foldl accumulate]. destruct (IH (t + points r, <[QuestionID r := points r]> m) Hnd)
      as [Hs Hz].
    + intros r' Hin. cbn. rewrite lookup_insert_ne.
      * apply (Hfresh r'). now right.
      * intros Heq. apply Hr. rewrite Heq.
        apply list_elem_of_In, in_map, list_elem_of_In, Hin.
    + rewrite Hs, Hz. cbn [snd].
      assert (m !! QuestionID r = None) as Hm by (apply (Hfresh r); now left).
      rewrite (score_sum_insert _ _ _ Hm), (map_size_insert_None _ _ _ Hm).
      unfold Reference.totalScore. cbn. split; lia.
Qed.

Lemma last_answer_distinct rs r :
  NoDup (List.map QuestionID rs) -> r ∈ rs ->
  Reference.last_answer (QuestionID r) rs = Some r.
Proof.
  induction rs as [|x rs IH]; intros Hnd Hin; [now apply elem_of_nil in Hin|].
  cbn [List.map] in Hnd. apply NoDup_cons in Hnd as [Hx Hnd].
  rewrite last_answer_cons. apply elem_of_cons in Hin as [-> | Hin].
  - assert (Reference.last_answer (QuestionID x) rs = None) as ->.
    { unfold Reference.last_answer.
      destruct (filter (λ r, QuestionID r = QuestionID x) rs) as [|y ys] eqn:E;
        [reflexivity|].
      exfalso. apply Hx.
      assert (y ∈ filter (λ r, QuestionID r = QuestionID x) rs) as Hy
          by (rewrite E; now left).
      apply list_elem_of_filter in Hy as [<- Hy].
      apply list_elem_of_In, in_map, list_elem_of_In, Hy. }
    now rewrite decide_True.
  - now rewrite (IH Hnd Hin).
Qed.

End Totals.

(** X11.  The total of [calculate_risk_score] does not depend on the
    order of the answers, and the total of two sequences put together is
    the sum of their totals. *)
Theorem calculate_risk_score_total_order
    (results results' : list Phase1.Result) :
  (results ≡ₚ results' ->
   (Phase1.calculate_risk_score results).1
   = (Phase1.calculate_risk_score results').1)
  /\ (Phase1.calculate_risk_score (results ++ results')).1
     = (Phase1.calculate_risk_score results).1
       + (Phase1.calculate_risk_score results').1.
Proof.
  rewrite !calculate_risk_score_total. split.
  - intros Hp. apply totalScore_Permutation. now rewrite Hp.
  - rewrite map_app. apply totalScore_app.
Qed.

Lemma calculate_risk_score_total_order_witness :
  (Phase1.calculate_risk_score [Sample.yes_no_no; Sample.above_scale]).1
  = (Phase1.calculate_risk_score [Sample.above_scale; Sample.yes_no_no]).1.
Proof.
  apply (calculate_risk_score_total_order
           [Sample.yes_no_no; Sample.above_scale]
           [Sample.above_scale; Sample.yes_no_no]).
  apply Permutation_swap.
Defined.

(** X12.  When the question identifiers of the answers are pairwise
    distinct, [question_scores] has one entry per answer, holding that
    answer's own points, and the entries add up to the total. *)
Theorem question_scores_distinct (results : list Phase1.Result) :
  NoDup (List.map Phase1.QuestionID results) ->
  (forall result, result ∈ results ->
     (Phase1.calculate_risk_score results).2 !! Phase1.QuestionID result
     = Some (Phase1.points result))
  /\ size (Phase1.calculate_risk_score results).2 = length results
  /\ Derived.score_sum (Phase1.calculate_risk_score results).2
     = (Phase1.calculate_risk_score results).1.
Proof.
  intros Hnd.
  destruct (foldl_accumulate_distinct results (0, ∅) Hnd) as [Hs Hz].
  { intros r _. apply lookup_empty. }
  split; [|split].
  - intros result Hin. unfold Phase1.calculate_risk_score.
    rewrite foldl_accumulate_lookup. now rewrite last_answer_distinct.
  - unfold Phase1.calculate_risk_score. rewrite Hz. cbn [snd].
    now rewrite map_size_empty.
  - rewrite calculate_risk_score_total. unfold Phase1.calculate_risk_score.
    rewrite Hs. cbn [snd]. unfold Derived.score_sum at 1.
    rewrite map_fold_empty. lia.
Qed.

Lemma question_scores_distinct_witness :
  size (Phase1.calculate_risk_score Demo.results).2 = 3%nat
  /\ Derived.score_sum (Phase1.calculate_risk_score Demo.results).2
     = (Phase1.calculate_risk_score Demo.results).1.
Proof.
  refine (proj2 (question_scores_distinct Demo.results _)).
  repeat constructor; cbn; rewrite ?elem_of_cons, ?elem_of_nil;
    intuition discriminate.
Defined.

(** ** The mapper's output, control by control *)

Section PerControl.

Import Phase2.

Implicit Types (m : gmap string (list Finding)) (c : string) (fd : Finding).

Lemma extend_extend entry fs1 fs2 :
  Derived.extend (Derived.extend entry fs1) fs2 = Derived.extend entry (fs1 ++ fs2).
Proof.
  destruct fs1 as [|f1 fs1]; [reflexivity|].
  destruct fs2 as [|f2 fs2]; cbn.
  - now rewrite app_nil_r.
  - now rewrite <- app_assoc.
Qed.

Lemma lookup_append_finding m c' c fd :
  append_finding m c' fd !! c
  = Derived.extend (m !! c) (if String.eqb c c' then [fd] else []).
Proof.
  destruct (String.eqb_spec c c') as [->|Hne].
  - apply lookup_append_finding_eq.
  - now rewrite lookup_append_finding_ne by congruence.
Qed.

Lemma lookup_append_all controls m c fd :
  append_all m controls fd !! c
  = Derived.extend (m !! c)
      (List.map (fun _ => fd) (List.filter (String.eqb c) controls)).
Proof.
  revert m. unfold append_all.
  induction controls as [|c' cs IH]; intros m; [reflexivity|].
  cbn [foldl List.filter]. rewrite IH, lookup_append_finding, extend_extend.
  now destruct (String.eqb c c').
Qed.

Lemma lookup_process_result lookup m result c :
  process_result lookup m result !! c
  = Derived.extend (m !! c) (Derived.contributions lookup c result).
Proof.
  unfold Derived.contributions.
  destruct (Z.gtb_spec (points_earned result) 0) as [Hp|Hp].
  - destruct (lookup !! QuestionID result) as [t|] eqn:Hl.
    + rewrite (process_result_risky _ _ _ t) by assumption.
      apply lookup_append_all.
    + now rewrite process_result_absent.
  - now rewrite process_result_not_risky.
Qed.

Lemma lookup_loop lookup results m c :
  foldl (process_result lookup) m results !! c
  = Derived.extend (m !! c)
      (flat_map (Derived.contributions lookup c) results).
Proof.
  revert m. induction results as [|r rs IH]; intros m; [reflexivity|].
  cbn [foldl flat_map]. now rewrite IH, lookup_process_result, extend_extend.
Qed.

End PerControl.

(** X13.  In the map returned by [analyze_framework_impact], the entry of
    a control is the sequence of the findings of the risky answers whose
    catalog question lists that control, in the order of the answers and
    once per listing; a control that no risky answer lists has no entry. *)
Theorem mapper_output_per_control
    (template_questions : list Phase2.Question)
    (assessment_results : list Phase2.Row)
    (framework_findings : gmap string (list Phase2.Finding)) (control : string) :
  Phase2.analyze_framework_impact (Some template_questions) (Some assessment_results)
  = Some framework_findings ->
  framework_findings !! control
  = match flat_map (Derived.contributions
                      (Phase2.question_lookup template_questions) control)
                   assessment_results with
    | [] => None
    | findings => Some findings
    end.
Proof.
  intros (qs & rs & [= <-] & [= <-] & _ & _ & ->)%analyze_framework_impact_Some.
  rewrite lookup_loop, lookup_empty.
  now destruct (flat_map _ assessment_results).
Qed.

Lemma mapper_output_per_control_witness :
  exists framework_findings,
    Phase2.analyze_framework_impact (Some Demo.template)
      (Some (List.map csv_row Demo.results)) = Some framework_findings
    /\ framework_findings !! "ISO:A.12"
       = Some [ {| Phase2.f_QuestionID := "Q2";
                   Phase2.f_QuestionText := "Patching maturity";
                   Phase2.f_AnswerGiven := "2"; Phase2.f_RiskPoints := 21;
                   Phase2.f_RiskArea := "Operations" |} ]
    /\ framework_findings !! "ISO:A.13" = None.
Proof.
  eexists. split; [reflexivity|]. split.
  - rewrite (mapper_output_per_control Demo.template
               (List.map csv_row Demo.results) _ "ISO:A.12" eq_refl).
    reflexivity.
  - rewrite (mapper_output_per_control Demo.template
               (List.map csv_row Demo.results) _ "ISO:A.13" eq_refl).
    reflexivity.
Defined.

(** ** Pieces of a control column *)

Section Pieces.

Import Py.

Lemma split_piece_no_sep sep s piece :
  piece ∈ split sep s -> contains sep piece = false.
Proof.
  revert piece. induction s as [|c s IH]; intros piece; cbn.
  - intros ->%list_elem_of_singleton. reflexivity.
  - destruct (Ascii.eqb_spec c sep) as [->|Hne].
    + intros [->|Hin]%elem_of_cons; [reflexivity | now apply IH].
    + destruct (split sep s) as [|p ps] eqn:E.
      * intros ->%list_elem_of_singleton. cbn.
        now apply Ascii.eqb_neq in Hne as ->.
      * intros [->|Hin]%elem_of_cons.
        -- cbn. apply Ascii.eqb_neq in Hne as ->. apply IH. now left.
        -- apply IH. now right.
Qed.

Lemma split_piece_contains sep s piece ch :
  piece ∈ split sep s -> contains ch piece = true -> contains ch s = true.
Proof.
  revert piece. induction s as [|c s IH]; intros piece; cbn.
  - intros ->%list_elem_of_singleton. discriminate.
  - destruct (Ascii.eqb c sep).
    + intros [->|Hin]%elem_of_cons; [discriminate|].
      intros Hc. rewrite (IH _ Hin Hc). apply orb_true_r.
    + destruct (split sep s) as [|p ps] eqn:E.
      * intros ->%list_elem_of_singleton. cbn. rewrite orb_false_r.
        now intros ->.
      * intros [->|Hin]%elem_of_cons.
        -- cbn. intros [->|Hc]%orb_true_iff; [reflexivity|].
           rewrite (IH p) by (assumption || now left). apply orb_true_r.
        -- intros Hc. rewrite (IH piece) by (assumption || now right).
           apply orb_true_r.
Qed.

Lemma lstrip_contains ch s : contains ch (lstrip s) = true -> contains ch s = true.
Proof.
  induction s as [|c s IH]; [trivial|]. cbn [lstrip].
  destruct (isspace c); [|trivial]. intros H%IH. cbn. rewrite H. apply orb_true_r.
Qed.

Lemma rstrip_contains ch s : contains ch (rstrip s) = true -> contains ch s = true.
Proof.
  induction s as [|c s IH]; [trivial|]. cbn.
  destruct (rstrip s) as [|c' r].
  - destruct (isspace c); [discriminate|]. cbn. rewrite orb_false_r.
    intros ->. reflexivity.
  - cbn in IH |- *. intros [->|H]%orb_true_iff; [reflexivity|].
    rewrite (IH H). apply orb_true_r.
Qed.

Lemma strip_contains ch s : contains ch (strip s) = true -> contains ch s = true.
Proof. unfold strip. intros H%rstrip_contains. now apply lstrip_contains. Qed.

Lemma lstrip_all_space s :
  (forall ch, contains ch s = true -> isspace ch = true) -> lstrip s = EmptyString.
Proof.
  induction s as [|c s IH]; [reflexivity|]. intros Hall. cbn.
  rewrite (Hall c) by (cbn; now rewrite Ascii.eqb_refl).
  apply IH. intros ch Hch. apply Hall. cbn. rewrite Hch. apply orb_true_r.
Qed.

Lemma relevant_controls_elem s control :
  control ∈ Phase2.relevant_controls s ->
  control <> EmptyString /\ strip control = control
  /\ contains ";" control = false
  /\ exists piece, piece ∈ split ";" s /\ control = strip piece.
Proof.
  unfold Phase2.relevant_controls.
  intros (piece & <- & Hin)%list_elem_of_In%in_map_iff.
  apply filter_In in Hin as [Hin%list_elem_of_In Hne].
  apply negb_true_iff in Hne. split; [|split; [|split]].
  - intros Heq. rewrite Heq in Hne. discriminate.
  - apply strip_idemp.
  - unfold strip. apply contains_rstrip, contains_lstrip.
    now apply (split_piece_no_sep _ s).
  - now exists piece.
Qed.

(** A column made of blanks and semicolons only lists no control. *)
Lemma relevant_controls_blank column :
  (forall ch, contains ch column = true -> isspace ch = true \/ ch = ";"%char) ->
  Phase2.relevant_controls (strip column) = [].
Proof.
  intros Hall.
  destruct (Phase2.relevant_controls (strip column)) as [|control cs] eqn:E;
    [reflexivity|].
  assert (control ∈ Phase2.relevant_controls (strip column)) as Hin
      by (rewrite E; now left).
  apply relevant_controls_elem in Hin as (Hne & _ & _ & piece & Hp & ->).
  exfalso. apply Hne. unfold strip. rewrite lstrip_all_space; [reflexivity|].
  intros ch Hch.
  destruct (Hall ch) as [Hs | ->]; [|exact Hs|].
  - eapply strip_contains, split_piece_contains; eassumption.
  - rewrite (split_piece_no_sep _ _ _ Hp) in Hch. discriminate.
Qed.

End Pieces.

Section CatalogLookup.

Import Phase2.

Lemma question_lookup_foldl (template_questions : list Question)
    (lookup : gmap string Question) (q_id : string) :
  foldl (fun lookup q => <[q_QuestionID q := q]> lookup) lookup template_questions
    !! q_id
  = match last (filter (fun q => q_QuestionID q = q_id) template_questions) with
    | Some q => Some q
    | None => lookup !! q_id
    end.
Proof.
  revert lookup. induction template_questions as [|q qs IH]; intros lookup;
    [reflexivity|].
  cbn [foldl]. rewrite IH, filter_cons. case_decide as Hq.
  - destruct (filter (λ q0, q_QuestionID q0 = q_id) qs) as [|q' qs'] eqn:E.
    + cbn. subst q_id. apply lookup_insert_eq.
    + rewrite (last_cons q). destruct (last (q' :: qs')) eqn:E2; [reflexivity|].
      now apply last_None in E2.
  - destruct (last (filter (λ q0, q_QuestionID q0 = q_id) qs)); [reflexivity|].
    now apply lookup_insert_ne.
Qed.

Lemma question_lookup_elem (template_questions : list Question) q_id q :
  question_lookup template_questions !! q_id = Some q ->
  q ∈ template_questions /\ q_QuestionID q = q_id.
Proof.
  unfold question_lookup. rewrite question_lookup_foldl, lookup_empty.
  destruct (last (filter (λ q0, q_QuestionID q0 = q_id) template_questions))
    as [q'|] eqn:E; [|discriminate].
  intros [= <-]. apply last_Some in E as (l & E).
  assert (q' ∈ filter (λ q0, q_QuestionID q0 = q_id) template_questions) as Hin
      by (rewrite E; apply elem_of_app; right; now left).
  apply list_elem_of_filter in Hin as [? ?]. now split.
Qed.

End CatalogLookup.

Section Tracing.

Import Phase2.

Lemma contributions_elem lookup control result finding :
  finding ∈ Derived.contributions lookup control result ->
  0 < points_earned result
  /\ exists template_info,
      lookup !! QuestionID result = Some template_info
      /\ finding = finding_details result template_info
      /\ control ∈ relevant_controls
           (Py.strip (default EmptyString
                        (q_RelevantFrameworkControl template_info))).
Proof.
  unfold Derived.contributions.
  destruct (Z.gtb_spec (points_earned result) 0) as [Hp|];
    [|intros Hnil; now apply elem_of_nil in Hnil].
  destruct (lookup !! QuestionID result) as [t|];
    [|intros Hnil; now apply elem_of_nil in Hnil].
  intros (c' & <- & Hin)%list_elem_of_In%in_map_iff.
  apply filter_In in Hin as [Hin ->%String.eqb_eq].
  split; [lia|]. exists t. repeat split. now apply list_elem_of_In.
Qed.

Lemma loop_finding_origin lookup results control findings finding :
  foldl (process_result lookup) ∅ results !! control = Some findings ->
  finding ∈ findings ->
  exists result, result ∈ results
    /\ finding ∈ Derived.contributions lookup control result.
Proof.
  rewrite lookup_loop, lookup_empty.
  destruct (flat_map (Derived.contributions lookup control) results)
    as [|f fs] eqn:E; [discriminate|].
  cbn. intros [= <-] Hin. rewrite <- E in Hin.
  apply list_elem_of_In, in_flat_map in Hin as (r & Hr & Hf).
  exists r. split; now apply list_elem_of_In.
Qed.

End Tracing.

(** X14.  Every key of the map returned by [analyze_framework_impact] is
    a control listed by some question of the template: it is not empty,
    has no blank at either end and contains no semicolon. *)
Theorem mapper_keys_wellformed
    (template_questions : list Phase2.Question)
    (assessment_results : list Phase2.Row)
    (framework_findings : gmap string (list Phase2.Finding))
    (control : string) (findings : list Phase2.Finding) :
  Phase2.analyze_framework_impact (Some template_questions) (Some assessment_results)
  = Some framework_findings ->
  framework_findings !! control = Some findings ->
  control <> EmptyString
  /\ Py.strip control = control
  /\ Py.contains ";" control = false
  /\ exists question,
      question ∈ template_questions
      /\ control ∈ Phase2.relevant_controls
           (Py.strip (default EmptyString
                        (Phase2.q_RelevantFrameworkControl question))).
Proof.
  intros (qs & rs & [= <-] & [= <-] & _ & _ & ->)%analyze_framework_impact_Some Hl.
  assert (exists finding, finding ∈ findings) as [finding Hin].
  { rewrite lookup_loop, lookup_empty in Hl.
    destruct (flat_map _ assessment_results) as [|f fs]; [discriminate|].
    injection Hl as <-. exists f. now left. }
  destruct (loop_finding_origin _ _ _ _ _ Hl Hin) as (r & _ & Hc).
  apply contributions_elem in Hc as (_ & t & Ht & _ & Hctl).
  destruct (relevant_controls_elem _ _ Hctl) as (Hne & Hs & Hsep & _).
  repeat split; try assumption.
  exists t. split; [|assumption]. now apply question_lookup_elem in Ht.
Qed.

Lemma mapper_keys_wellformed_witness :
  Py.strip "NIST:AC-2" = "NIST:AC-2" /\ Py.contains ";" "NIST:AC-2" = false.
Proof.
  destruct (mapper_keys_wellformed Sample.two_controls [csv_row Sample.yes_no_no]
              _ "NIST:AC-2" [Sample.finding_Q1] eq_refl eq_refl)
    as (_ & Hs & Hc & _).
  split; assumption.
Defined.

(** X15.  A question whose control column is missing, empty, or made of
    blanks and semicolons only is never mapped: its answer, however
    risky, leaves the findings unchanged. *)
Theorem blank_controls_map_nothing
    (question_lookup : gmap string Phase2.Question)
    (framework_findings : gmap string (list Phase2.Finding))
    (result : Phase2.Row) (template_info : Phase2.Question) :
  question_lookup !! Phase2.QuestionID result = Some template_info ->
  (forall ch,
      Py.contains ch (default EmptyString
                        (Phase2.q_RelevantFrameworkControl template_info)) = true ->
      Py.isspace ch = true \/ ch = ";"%char) ->
  Phase2.process_result question_lookup framework_findings result
  = framework_findings.
Proof.
  intros Hl Hblank.
  destruct (Z.le_gt_cases (Phase2.points_earned result) 0) as [Hp|Hp].
  { now apply process_result_not_risky. }
  rewrite (process_result_risky _ _ _ template_info) by (assumption || lia).
  now rewrite relevant_controls_blank.
Qed.

Lemma blank_controls_map_nothing_witness :
  Phase2.process_result
    (Phase2.question_lookup [Sample.question "Q1" "yes_no" "10" (Some " ; ;")])
    ∅ (csv_row Sample.yes_no_no) = ∅.
Proof.
  apply (blank_controls_map_nothing
           (Phase2.question_lookup
              [Sample.question "Q1" "yes_no" "10" (Some " ; ;")])
           ∅ (csv_row Sample.yes_no_no)
           (Sample.question "Q1" "yes_no" "10" (Some " ; ;")) eq_refl).
  intros ch. destruct ch as [[] [] [] [] [] [] [] []]; vm_compute;
    first [discriminate | intros _; left; reflexivity | intros _; right; reflexivity].
Defined.

(** X16.  The mapper leaves the findings unchanged for a row whose weight
    does not parse as an integer, for a 1-to-5 row whose answer does not
    parse, for a yes/no row whose answer is not "no", and for a row of any
    other answer type. *)
Theorem unscored_rows_map_nothing
    (question_lookup : gmap string Phase2.Question)
    (framework_findings : gmap string (list Phase2.Finding))
    (result : Phase2.Row) :
  Py.int (Phase2.RiskWeight result) = None
  \/ (Py.lower (Phase2.AnswerType result) = "score_1_5"
      /\ Py.int (Phase2.AnswerGiven result) = None)
  \/ (Py.lower (Phase2.AnswerType result) = "yes_no"
      /\ Phase2.AnswerGiven result <> "no")
  \/ (Py.lower (Phase2.AnswerType result) <> "yes_no"
      /\ Py.lower (Phase2.AnswerType result) <> "score_1_5") ->
  Phase2.points_earned result = 0
  /\ Phase2.process_result question_lookup framework_findings result
     = framework_findings.
Proof.
  intros Hcase.
  assert (Phase2.points_earned result = 0) as Hp.
  { destruct Hcase as [Hw | [[Ht Ha] | [[Ht Ha] | [Ht1 Ht2]]]].
    - unfold Phase2.points_earned, Phase2.risk_weight. rewrite Hw.
      destruct (String.eqb _ "yes_no"); [now destruct (String.eqb _ "no")|].
      destruct (String.eqb _ "score_1_5"); [|reflexivity].
      destruct (Py.int (Phase2.AnswerGiven result)); lia.
    - now apply points_earned_score_unparsed.
    - rewrite points_earned_yes_no by assumption.
      now destruct (String.eqb_spec (Phase2.AnswerGiven result) "no").
    - now apply points_earned_other. }
  split; [exact Hp|]. apply process_result_not_risky. lia.
Qed.

Lemma unscored_rows_map_nothing_witness :
  Phase2.process_result (Phase2.question_lookup Sample.catalog) ∅
    (csv_row (Sample.result "Q1" "score_1_5" 3 "abc")) = ∅.
Proof.
  apply (unscored_rows_map_nothing (Phase2.question_lookup Sample.catalog) ∅
           (csv_row (Sample.result "Q1" "score_1_5" 3 "abc"))).
  right. left. split; reflexivity.
Defined.

(** X17.  When several template rows share a question identifier, the
    mapper uses the last of them: its lookup table returns that row, and
    the text and risk area of every finding are taken from it. *)
Theorem catalog_last_row_wins
    (template_questions : list Phase2.Question)
    (assessment_results : list Phase2.Row)
    (framework_findings : gmap string (list Phase2.Finding)) :
  (forall q_id,
      Phase2.question_lookup template_questions !! q_id
      = last (filter (fun q => Phase2.q_QuestionID q = q_id) template_questions))
  /\ (Phase2.analyze_framework_impact (Some template_questions)
        (Some assessment_results) = Some framework_findings ->
      forall control findings finding,
        framework_findings !! control = Some findings ->
        finding ∈ findings ->
        exists question,
          last (filter (fun q => Phase2.q_QuestionID q
                                 = Phase2.f_QuestionID finding)
                       template_questions) = Some question
          /\ Phase2.f_QuestionText finding = Phase2.q_QuestionText question
          /\ Phase2.f_RiskArea finding = Phase2.q_RiskArea question).
Proof.
  assert (forall q_id,
             Phase2.question_lookup template_questions !! q_id
             = last (filter (fun q => Phase2.q_QuestionID q = q_id)
                            template_questions)) as Hlast.
  { intros q_id. unfold Phase2.question_lookup.
    rewrite question_lookup_foldl, lookup_empty. now destruct (last _). }
  split; [exact Hlast|].
  intros (qs & rs & [= <-] & [= <-] & _ & _ & ->)%analyze_framework_impact_Some
         control findings finding Hl Hin.
  destruct (loop_finding_origin _ _ _ _ _ Hl Hin) as (r & _ & Hc).
  apply contributions_elem in Hc as (_ & t & Ht & -> & _).
  exists t. rewrite <- Hlast. repeat split. exact Ht.
Qed.

Lemma catalog_last_row_wins_witness :
  Phase2.question_lookup
    [Sample.question "Q1" "yes_no" "10" None;
     Sample.question "Q1" "text" "0" (Some "ISO:A.9")] !! "Q1"
  = Some (Sample.question "Q1" "text" "0" (Some "ISO:A.9")).
Proof.
  rewrite (proj1 (catalog_last_row_wins
                    [Sample.question "Q1" "yes_no" "10" None;
                     Sample.question "Q1" "text" "0" (Some "ISO:A.9")] [] ∅)).
  reflexivity.
Defined.

(** ** From the collected answers to the findings *)

(** X18.  When the questionnaire has pairwise distinct identifiers and
    [conduct_assessment] completes, every finding that the mapper derives
    from the saved answers carries, for its question, exactly the points
    that [calculate_risk_score] recorded for that question in
    [question_scores]; the two reports agree. *)
Theorem findings_match_question_scores
    (questions : list Collect.Question) (inputs unread : list string)
    (vendor_name : string) (results : list Phase1.Result)
    (template_questions : list Phase2.Question)
    (framework_findings : gmap string (list Phase2.Finding))
    (control : string) (findings : list Phase2.Finding)
    (finding : Phase2.Finding) :
  NoDup (List.map Collect.QuestionID questions) ->
  Collect.conduct_assessment (Some questions) inputs
  = Collect.Returned (Some (vendor_name, results)) unread ->
  Phase2.analyze_framework_impact (Some template_questions)
    (Some (List.map csv_row results)) = Some framework_findings ->
  framework_findings !! control = Some findings ->
  finding ∈ findings ->
  (Phase1.calculate_risk_score results).2 !! Phase2.f_QuestionID finding
  = Some (Phase2.f_RiskPoints finding).
Proof.
  intros Hnd (qs & line & unread0 & [= <-] & _ & _ & _ & _ & Hask)
           %conduct_assessment_Some
         (tq & rs & [= <-] & [= <-] & _ & _ & ->)%analyze_framework_impact_Some
         Hl Hin.
  apply ask_all_Returned in Hask.
  destruct (loop_finding_origin _ _ _ _ _ Hl Hin) as (row & Hrow & Hc).
  apply contributions_elem in Hc as (_ & t & _ & -> & _).
  apply list_elem_of_In, in_map_iff in Hrow as (r & <- & Hr%list_elem_of_In).
  destruct (Forall2_elem_of_r _ _ _ _ Hask Hr) as (q & _ & Hq).
  cbn [Phase2.finding_details Phase2.f_QuestionID Phase2.f_RiskPoints].
  rewrite phases_agree.
  - change (Phase2.QuestionID (csv_row r)) with (Phase1.QuestionID r).
    unfold Phase1.calculate_risk_score. rewrite foldl_accumulate_lookup.
    rewrite last_answer_distinct; [reflexivity | | assumption].
    destruct (Forall2_collected_unzip _ _ Hask) as [-> _]. exact Hnd.
  - intros Ht. destruct (collected_parses _ _ Hq Ht) as (score & _ & ->).
    now eexists.
Qed.

Lemma findings_match_question_scores_witness :
  (Phase1.calculate_risk_score Demo.results).2 !! "Q2" = Some 21.
Proof.
  apply (findings_match_question_scores (default [] Demo.questionnaire)
           Demo.typed [] "Acme Corp" Demo.results Demo.template
           (foldl (Phase2.process_result (Phase2.question_lookup Demo.template))
                  ∅ (List.map csv_row Demo.results))
           "ISO:A.12"
           [ {| Phase2.f_QuestionID := "Q2";
                Phase2.f_QuestionText := "Patching maturity";
                Phase2.f_AnswerGiven := "2"; Phase2.f_RiskPoints := 21;
                Phase2.f_RiskArea := "Operations" |} ]
           {| Phase2.f_QuestionID := "Q2";
              Phase2.f_QuestionText := "Patching maturity";
              Phase2.f_AnswerGiven := "2"; Phase2.f_RiskPoints := 21;
              Phase2.f_RiskArea := "Operations" |});
    try reflexivity.
  - repeat constructor; cbn; rewrite ?elem_of_cons, ?elem_of_nil;
      intuition discriminate.
  - now left.
Defined.

(** ** Sorting by a string key *)

Section Sorting.

Context {A : Type} (key : A -> string).

Let le_key (x y : A) : Prop := String.leb (key x) (key y) = true.

Lemma leb_trans s1 s2 s3 :
  String.leb s1 s2 = true -> String.leb s2 s3 = true -> String.leb s1 s3 = true.
Proof.
  intros H1%Is_true_true H2%Is_true_true. apply Is_true_true.
  exact (transitivity (R := String.le) H1 H2).
Qed.

Lemma leb_false_flip s1 s2 : String.leb s1 s2 = false -> String.leb s2 s1 = true.
Proof. destruct (String.leb_total s1 s2); congruence. Qed.


Lemma insert_sorted_Permutation x xs : PyText.insert_sorted key x xs ≡ₚ x :: xs.
Proof.
  induction xs as [|y ys IH]; [reflexivity|]. cbn.
  destruct (String.leb (key x) (key y)); [reflexivity|].
  rewrite IH. apply Permutation_swap.
Qed.

Lemma sorted_Permutation xs : PyText.sorted key xs ≡ₚ xs.
Proof.
  induction xs as [|x xs IH]; [reflexivity|]. cbn.
  now rewrite insert_sorted_Permutation, IH.
Qed.

Lemma insert_sorted_StronglySorted x xs :
  StronglySorted le_key xs -> StronglySorted le_key (PyText.insert_sorted key x xs).
Proof.
  induction 1 as [|y ys Hs IH Hall]; cbn; [repeat constructor|].
  destruct (String.leb (key x) (key y)) eqn:Hxy.
  - constructor; [now constructor|]. constructor; [exact Hxy|].
    eapply Forall_impl; [exact Hall|]. intros z Hz. exact (leb_trans _ _ _ Hxy Hz).
  - constructor; [exact IH|].
    rewrite insert_sorted_Permutation. constructor; [|exact Hall].
    now apply leb_false_flip.
Qed.

Lemma sorted_StronglySorted xs : StronglySorted le_key (PyText.sorted key xs).
Proof.
  induction xs as [|x xs IH]; [constructor|]. cbn.
  now apply insert_sorted_StronglySorted.
Qed.



End Sorting.

(** ** The assessment report *)

Section Details.

Import AssessmentReport.

Variable question_scores : gmap string Z.






End Details.

Section ReportWrites.

Import AssessmentReport.

Variables (script vendor_name : string) (results : list Phase1.Result)
          (total_score : Z) (question_scores : gmap string Z).

Let writes : list write :=
  (generate_assessment_report script vendor_name results total_score
     question_scores).2.




End ReportWrites.






(** ** File names *)

Section Slug.

Import AssessmentReport.

Lemma lower_char_replace c :
  Py.lower_char (if Ascii.eqb c " " then "_"%char else c)
  = if Ascii.eqb (Py.lower_char c) " " then "_"%char else Py.lower_char c.
Proof. destruct c as [[] [] [] [] [] [] [] []]; reflexivity. Qed.

Lemma lower_replace s :
  Py.lower (PyText.replace " " "_" s) = PyText.replace " " "_" (Py.lower s).
Proof.
  induction s as [|c s IH]; [reflexivity|]. cbn [PyText.replace Py.lower].
  now rewrite lower_char_replace, IH.
Qed.

Lemma replace_idemp s :
  PyText.replace " " "_" (PyText.replace " " "_" s) = PyText.replace " " "_" s.
Proof.
  induction s as [|c s IH]; [reflexivity|]. cbn [PyText.replace]. rewrite IH.
  destruct (Ascii.eqb_spec c " ") as [->|Hc]; [reflexivity|].
  now apply Ascii.eqb_neq in Hc as ->.
Qed.

Lemma replace_no_space s : Py.contains " " (PyText.replace " " "_" s) = false.
Proof.
  induction s as [|c s IH]; [reflexivity|].
  cbn [PyText.replace Py.contains]. rewrite IH.
  destruct (Ascii.eqb_spec c " ") as [->|Hc]; [reflexivity|].
  now apply Ascii.eqb_neq in Hc as ->.
Qed.

Lemma slug_lower v : slug (Py.lower v) = slug v.
Proof.
  unfold slug. rewrite (lower_replace (Py.lower v)), lower_idemp.
  symmetry. apply lower_replace.
Qed.

Lemma slug_replace v : slug (PyText.replace " " "_" v) = slug v.
Proof. unfold slug. now rewrite replace_idemp. Qed.

Lemma slug_no_space v : Py.contains " " (slug v) = false.
Proof. unfold slug. rewrite lower_replace. apply replace_no_space. Qed.

End Slug.

(** X22.  The report and data file names depend on the vendor name only
    up to letter case and up to spaces written as underscores: two vendor
    names that differ only in these share both files.  The names never
    contain a space from the vendor name. *)
Theorem file_names_normalised (vendor_name : string) :
  AssessmentReport.report_filename (Py.lower vendor_name)
  = AssessmentReport.report_filename vendor_name
  /\ AssessmentReport.report_filename (PyText.replace " " "_" vendor_name)
     = AssessmentReport.report_filename vendor_name
  /\ AssessmentReport.data_filename (Py.lower vendor_name)
     = AssessmentReport.data_filename vendor_name
  /\ AssessmentReport.data_filename (PyText.replace " " "_" vendor_name)
     = AssessmentReport.data_filename vendor_name
  /\ Py.contains " " (AssessmentReport.slug vendor_name) = false.
Proof.
  unfold AssessmentReport.report_filename, AssessmentReport.data_filename.
  rewrite slug_lower, slug_replace. repeat split. apply slug_no_space.
Qed.

(** ** The phase-1 script *)

Section Main.

Import AssessmentReport.


End Main.



(** ** The framework report *)

Section FrameworkWrites.

Import FrameworkReport.

Lemma control_headings_findings findings :
  control_headings (flat_map finding_writes findings) = [].
Proof.
  unfold control_headings. induction findings as [|f fs IH]; [reflexivity|].
  cbn [flat_map]. rewrite flat_map_app, IH. unfold finding_writes.
  rewrite !flat_map_app. cbn. now destruct (Phase2.f_RiskPoints f >? 0).
Qed.

Lemma control_headings_control m control :
  control_headings (control_writes m control) = [control].
Proof.
  unfold control_writes.
  change (control_headings ([ControlHeading control; RelevantFindings] ++ ?l))
    with (control :: control_headings l).
  now rewrite control_headings_findings.
Qed.

Lemma control_headings_controls m controls :
  control_headings (flat_map (control_writes m) controls) = controls.
Proof.
  induction controls as [|c cs IH]; [reflexivity|].
  cbn [flat_map]. unfold control_headings in *.
  rewrite flat_map_app, IH.
  change (flat_map _ (control_writes m c)) with (control_headings (control_writes m c)).
  now rewrite control_headings_control.
Qed.

Lemma keys_spec (m : gmap string (list Phase2.Finding)) control :
  control ∈ keys m <-> is_Some (m !! control).
Proof.
  unfold keys. rewrite list_elem_of_fmap. split.
  - intros ([c fs] & -> & Hin). apply elem_of_map_to_list in Hin. now exists fs.
  - intros [fs Hfs]. exists (control, fs). split; [reflexivity|].
    now apply elem_of_map_to_list.
Qed.

Lemma keys_NoDup (m : gmap string (list Phase2.Finding)) : NoDup (keys m).
Proof. apply NoDup_fst_map_to_list. Qed.

Lemma report_control_headings script vendor_name
    (m : gmap string (list Phase2.Finding)) :
  control_headings (generate_framework_report script vendor_name m).2
  = PyText.sorted id (keys m).
Proof.
  unfold generate_framework_report. cbn [snd].
  unfold control_headings. rewrite !flat_map_app. cbn [flat_map app].
  rewrite app_nil_r. case_bool_decide as Hm.
  - subst m. unfold keys. now rewrite map_to_list_empty.
  - cbn [flat_map app]. apply control_headings_controls.
Qed.

Lemma finding_writes_risky finding :
  0 < Phase2.f_RiskPoints finding ->
  finding_writes finding = full_finding_writes finding.
Proof.
  intros Hp. unfold finding_writes, full_finding_writes.
  now destruct (Z.gtb_spec (Phase2.f_RiskPoints finding) 0); [|lia].
Qed.

End FrameworkWrites.

(** X24.  In the framework report of a map returned by
    [analyze_framework_impact], the section of a control holds, for every
    finding of that control and in their order, the question, the answer,
    the risk points and the risk area: the points line is never left
    out. *)
Theorem framework_report_shows_points
    (template_questions : list Phase2.Question)
    (assessment_results : list Phase2.Row)
    (framework_findings : gmap string (list Phase2.Finding))
    (control : string) (findings : list Phase2.Finding) :
  Phase2.analyze_framework_impact (Some template_questions) (Some assessment_results)
  = Some framework_findings ->
  framework_findings !! control = Some findings ->
  FrameworkReport.control_writes framework_findings control
  = [FrameworkReport.ControlHeading control; FrameworkReport.RelevantFindings]
    ++ flat_map FrameworkReport.full_finding_writes findings.
Proof.
  intros (qs & rs & [= <-] & [= <-] & _ & _ & ->)%analyze_framework_impact_Some Hl.
  unfold FrameworkReport.control_writes. rewrite Hl. cbn [default from_option id].
  f_equal.
  assert (Phase2.findings_all (fun f => 0 < Phase2.f_RiskPoints f)
            (foldl (Phase2.process_result
                      (Phase2.question_lookup template_questions))
                   ∅ assessment_results)) as Hall.
  { apply findings_all_loop; [|apply findings_all_empty]. now intros. }
  destruct (Hall control findings Hl) as [_ Hpos]. clear Hl Hall.
  induction Hpos as [|f fs Hf _ IH]; [reflexivity|].
  cbn [flat_map]. now rewrite IH, finding_writes_risky.
Qed.

Lemma framework_report_shows_points_witness :
  FrameworkReport.control_writes
    (foldl (Phase2.process_result (Phase2.question_lookup Sample.catalog)) ∅
           [csv_row Sample.yes_no_no]) "ISO:A.9"
  = [FrameworkReport.ControlHeading "ISO:A.9"; FrameworkReport.RelevantFindings;
     FrameworkReport.QuestionLine "Q1" "Question Q1";
     FrameworkReport.AnswerLine "no"; FrameworkReport.PointsLine 10;
     FrameworkReport.AreaLine "Access"; FrameworkReport.BlankLine].
Proof.
  exact (framework_report_shows_points Sample.catalog [csv_row Sample.yes_no_no]
           (foldl (Phase2.process_result (Phase2.question_lookup Sample.catalog)) ∅
                  [csv_row Sample.yes_no_no])
           "ISO:A.9" [Sample.finding_Q1] eq_refl eq_refl).
Defined.

(** X25.  The framework report has exactly one section per control of
    the map it is given, and the sections come in ascending order of the
    control identifiers. *)
Theorem framework_report_sections
    (script vendor_name : string)
    (framework_findings : gmap string (list Phase2.Finding)) :
  let headings :=
    FrameworkReport.control_headings
      (FrameworkReport.generate_framework_report script vendor_name
         framework_findings).2 in
  NoDup headings
  /\ (forall control,
        control ∈ headings <-> is_Some (framework_findings !! control))
  /\ StronglySorted (fun a b => String.leb a b = true) headings.
Proof.
  cbn zeta. rewrite report_control_headings.
  pose proof (sorted_Permutation id (FrameworkReport.keys framework_findings)) as Hp.
  split; [|split].
  - rewrite Hp. apply keys_NoDup.
  - intros control. rewrite Hp. apply keys_spec.
  - apply (sorted_StronglySorted id).
Qed.

Lemma framework_report_sections_witness :
  "ISO:A.9"
  ∈ FrameworkReport.control_headings
      (FrameworkReport.generate_framework_report "phase2_mapper.py" "Acme Corp"
         {["ISO:A.9" := [Sample.finding_Q1]]}).2.
Proof.
  apply (framework_report_sections "phase2_mapper.py" "Acme Corp"
           {["ISO:A.9" := [Sample.finding_Q1]]}).
  exists [Sample.finding_Q1]. apply lookup_singleton_eq.
Defined.

Section Frameworks.

Import FrameworkReport.

Lemma frameworks_found_spec controls framework :
  framework ∈ frameworks_found controls
  <-> exists control,
        control ∈ controls /\ Py.contains ":" control = true
        /\ framework = hd EmptyString (Py.split ":" control).
Proof.
  unfold frameworks_found. rewrite (sorted_Permutation id), elem_of_remove_dups.
  rewrite list_elem_of_In, in_map_iff. split.
  - intros (c & <- & [Hc Hcolon]%filter_In). exists c.
    repeat split; [now apply list_elem_of_In | assumption].
  - intros (c & Hc & Hcolon & ->). exists c. split; [reflexivity|].
    apply filter_In. split; [now apply list_elem_of_In | assumption].
Qed.

Lemma split_head_no_sep sep s :
  Py.contains sep (hd EmptyString (Py.split sep s)) = false.
Proof.
  destruct (Py.split sep s) as [|piece pieces] eqn:E; [reflexivity|].
  apply (split_piece_no_sep sep s). rewrite E. now left.
Qed.

End Frameworks.

(** X27.  The frameworks named in the framework report are the parts
    before the first colon of the controls that contain a colon: each is
    named once, in ascending order, and contains no colon itself; when no
    control contains a colon the report says "N/A". *)
Theorem framework_report_frameworks
    (script vendor_name : string)
    (framework_findings : gmap string (list Phase2.Finding)) :
  let frameworks :=
    FrameworkReport.frameworks_found (FrameworkReport.keys framework_findings) in
  NoDup frameworks
  /\ StronglySorted (fun a b => String.leb a b = true) frameworks
  /\ (forall framework,
        framework ∈ frameworks
        <-> exists control,
              is_Some (framework_findings !! control)
              /\ Py.contains ":" control = true
              /\ framework = hd EmptyString (Py.split ":" control))
  /\ (forall framework, framework ∈ frameworks -> Py.contains ":" framework = false)
  /\ ((forall control, is_Some (framework_findings !! control) ->
                       Py.contains ":" control = false) ->
      (FrameworkReport.generate_framework_report script vendor_name
         framework_findings).2 !! 2%nat
      = Some (FrameworkReport.FrameworksLine "N/A")).
Proof.
  cbn zeta.
  assert (forall framework,
             framework ∈ FrameworkReport.frameworks_found
                           (FrameworkReport.keys framework_findings)
             <-> exists control,
                   is_Some (framework_findings !! control)
                   /\ Py.contains ":" control = true
                   /\ framework = hd EmptyString (Py.split ":" control)) as Hspec.
  { intros framework. rewrite frameworks_found_spec.
    split; intros (c & Hc & H); exists c; (split; [|exact H]);
      now apply keys_spec. }
  split; [|split; [|split; [exact Hspec|split]]].
  - unfold FrameworkReport.frameworks_found.
    rewrite (sorted_Permutation id). apply NoDup_remove_dups.
  - apply (sorted_StronglySorted id).
  - intros framework (c & _ & _ & ->)%Hspec. apply split_head_no_sep.
  - intros Hnone.
    assert (FrameworkReport.frameworks_found
              (FrameworkReport.keys framework_findings) = []) as Hnil.
    { destruct (FrameworkReport.frameworks_found _) as [|fw fws] eqn:E;
        [reflexivity|].
      assert (fw ∈ fw :: fws) as Hin by now left.
      apply Hspec in Hin as (c & Hc & Hcolon & _).
      rewrite (Hnone c Hc) in Hcolon. discriminate. }
    unfold FrameworkReport.generate_framework_report. rewrite Hnil. reflexivity.
Qed.

Lemma framework_report_frameworks_witness :
  (FrameworkReport.generate_framework_report "phase2_mapper.py" "Acme Corp"
     {["Access control" := [Sample.finding_Q1]]}).2 !! 2%nat
  = Some (FrameworkReport.FrameworksLine "N/A").
Proof.
  apply (framework_report_frameworks "phase2_mapper.py" "Acme Corp"
           {["Access control" := [Sample.finding_Q1]]}).
  intros control [fs Hfs].
  apply lookup_singleton_Some in Hfs as [<- _]. reflexivity.
Defined.

(** The framework line of the sample assessment. *)
Example frameworks_of_demo :
  (FrameworkReport.generate_framework_report "phase2_mapper.py" "Acme Corp"
     (foldl (Phase2.process_result (Phase2.question_lookup Demo.template)) ∅
            (List.map csv_row Demo.results))).2 !! 2%nat
  = Some (FrameworkReport.FrameworksLine "ISO, NIST").
Proof. vm_compute. reflexivity. Qed.


(** ** The sample assessment, end to end *)

Example demo_run :
  match AssessmentReport.main "phase1_assessor.py"
          (Some (Demo.header, Demo.template)) Demo.typed with
  | AssessmentReport.Completed (report_name, writes) (data_name, rows) =>
      report_name = "assessment_report_acme_corp.md"
      /\ data_name = "completed_assessment_acme_corp.csv"
      /\ rows = List.map csv_row Demo.results
      /\ writes !! 2%nat = Some (AssessmentReport.TotalLine 31)
      /\ writes !! 3%nat = Some (AssessmentReport.LevelLine "Medium")
      /\ AssessmentReport.area_headings writes = ["Access"; "General"; "Operations"]
      /\ AssessmentReport.question_ids writes = ["Q1"; "Q3"; "Q2"]
  | _ => False
  end.
Proof. vm_compute. repeat split; reflexivity. Qed.

Example demo_texts :
  AssessmentReport.text (AssessmentReport.PointsLine 21 7)
  = "> **Risk Points Added:** 21 (Weight: 7)" +:+ PyText.nl
  /\ FrameworkReport.text (FrameworkReport.QuestionLine "Q1" "MFA enforced?")
     = "- **Question:** Q1: MFA enforced?" +:+ PyText.nl.
Proof. split; reflexivity. Qed.

(** * The rows as read *)

(** ** Complete rows *)

Section Complete.

Import Raw.

Lemma result_cells (r : Phase2.Row) :
  row_of_result r !! "QuestionID" = Some (Some (Phase2.QuestionID r))
  /\ row_of_result r !! "AnswerGiven" = Some (Some (Phase2.AnswerGiven r))
  /\ row_of_result r !! "AnswerType" = Some (Some (Phase2.AnswerType r))
  /\ row_of_result r !! "RiskWeight" = Some (Some (Phase2.RiskWeight r)).
Proof. repeat split; reflexivity. Qed.

Lemma question_cells (q : Phase2.Question) :
  row_of_question q !! "QuestionID" = Some (Some (Phase2.q_QuestionID q))
  /\ row_of_question q !! "QuestionText" = Some (Some (Phase2.q_QuestionText q))
  /\ row_of_question q !! "RiskArea" = Some (Some (Phase2.q_RiskArea q))
  /\ row_of_question q !! "RiskWeight" = Some (Some (Phase2.q_RiskWeight q))
  /\ row_of_question q !! "RelevantFrameworkControl"
     = Some <$> Phase2.q_RelevantFrameworkControl q.
Proof.
  unfold row_of_question.
  destruct (Phase2.q_RelevantFrameworkControl q); repeat split; reflexivity.
Qed.

Lemma raw_append_finding_insert (m : gmap string (list finding)) c fd :
  append_finding m c fd = <[c := default [] (m !! c) ++ [fd]]> m.
Proof.
  unfold append_finding. destruct (m !! c) as [fs|] eqn:E.
  - now rewrite E.
  - rewrite lookup_insert_eq. cbn. apply insert_insert_eq.
Qed.

Lemma findings_of_append m c fd :
  append_finding (findings_of m) c (finding_of fd)
  = findings_of (Phase2.append_finding m c fd).
Proof.
  rewrite raw_append_finding_insert, append_finding_insert.
  unfold findings_of. rewrite fmap_insert, lookup_fmap, map_app.
  now destruct (m !! c).
Qed.

Lemma findings_of_append_all controls m fd :
  foldl (fun findings control => append_finding findings control (finding_of fd))
        (findings_of m) controls
  = findings_of (Phase2.append_all m controls fd).
Proof.
  revert m. unfold Phase2.append_all.
  induction controls as [|c cs IH]; intros m; [reflexivity|].
  cbn [foldl]. now rewrite findings_of_append, IH.
Qed.

Lemma question_lookup_complete_foldl template_questions lookup raw_lookup :
  same_lookup lookup raw_lookup ->
  exists raw_lookup',
    foldl (fun acc q =>
             let* lookup := acc in
             match q !! "QuestionID" with
             | Some q_id => Return (<[q_id := q]> lookup)
             | None => Raise KeyError
             end)
          (Return raw_lookup) (List.map row_of_question template_questions)
    = Return raw_lookup'
    /\ same_lookup
         (foldl (fun lookup q => <[Phase2.q_QuestionID q := q]> lookup)
                lookup template_questions)
         raw_lookup'.
Proof.
  revert lookup raw_lookup.
  induction template_questions as [|q qs IH]; intros lookup raw_lookup Hsame.
  - exists raw_lookup. now split.
  - cbn [List.map foldl bind].
    destruct (question_cells q) as (-> & _).
    apply IH. intros q_id.
    destruct (decide (Phase2.q_QuestionID q = q_id)) as [->|Hne].
    + now rewrite !lookup_insert_eq.
    + rewrite !lookup_insert_ne by congruence. apply Hsame.
Qed.

Lemma question_lookup_complete template_questions :
  exists raw_lookup,
    question_lookup (List.map row_of_question template_questions)
    = Return raw_lookup
    /\ same_lookup (Phase2.question_lookup template_questions) raw_lookup.
Proof.
  apply question_lookup_complete_foldl. intros q_id.
  now rewrite !lookup_empty.
Qed.

Lemma points_earned_complete (r : Phase2.Row) :
  points_earned (Some (Phase2.AnswerGiven r)) (Py.lower (Phase2.AnswerType r))
                (Phase2.risk_weight r)
  = Return (Phase2.points_earned r).
Proof.
  unfold points_earned, Phase2.points_earned.
  destruct (String.eqb _ "yes_no").
  - f_equal. destruct (String.eqb_spec (Phase2.AnswerGiven r) "no") as [->|Hne].
    + now rewrite bool_decide_true.
    + rewrite bool_decide_false; [reflexivity | congruence].
  - now destruct (String.eqb _ "score_1_5").
Qed.

Lemma process_result_complete lookup raw_lookup m (r : Phase2.Row) :
  same_lookup lookup raw_lookup ->
  process_result raw_lookup (findings_of m) (row_of_result r)
  = Return (findings_of (Phase2.process_result lookup m r)).
Proof.
  intros Hsame. unfold process_result, get, get_str, risk_weight.
  destruct (result_cells r) as (-> & -> & -> & ->).
  cbn [bind]. fold (Phase2.risk_weight r). rewrite points_earned_complete.
  cbn [bind]. unfold Phase2.process_result.
  destruct (Phase2.points_earned r >? 0); [|reflexivity].
  rewrite Hsame. destruct (lookup !! Phase2.QuestionID r) as [t|]; [|reflexivity].
  cbn [fmap option_fmap option_map].
  destruct (question_cells t) as (_ & -> & -> & _ & ->).
  assert (match Some <$> Phase2.q_RelevantFrameworkControl t with
          | Some (Some s) => Return (Py.strip s)
          | Some None => Raise AttributeError
          | None => Return (Py.strip EmptyString)
          end
          = Return (Py.strip (default EmptyString
                                (Phase2.q_RelevantFrameworkControl t)))) as ->
      by now destruct (Phase2.q_RelevantFrameworkControl t).
  cbn [bind].
  destruct (negb (String.eqb _ EmptyString)); [|reflexivity].
  f_equal. apply (findings_of_append_all _ m (Phase2.finding_details r t)).
Qed.

Lemma process_results_complete_foldl lookup raw_lookup results m :
  same_lookup lookup raw_lookup ->
  foldl (fun acc result =>
           let* framework_findings := acc in
           process_result raw_lookup framework_findings result)
        (Return (findings_of m)) (List.map row_of_result results)
  = Return (findings_of (foldl (Phase2.process_result lookup) m results)).
Proof.
  intros Hsame. revert m. induction results as [|r rs IH]; intros m; [reflexivity|].
  cbn [List.map foldl bind].
  rewrite (process_result_complete lookup) by assumption. apply IH.
Qed.

Lemma analyze_complete (template_questions : list Phase2.Question)
    (assessment_results : list Phase2.Row) :
  analyze_framework_impact
    (Some (List.map row_of_question template_questions))
    (Some (List.map row_of_result assessment_results))
  = Return (findings_of
              <$> Phase2.analyze_framework_impact (Some template_questions)
                    (Some assessment_results)).
Proof.
  destruct template_questions as [|q qs]; [reflexivity|].
  destruct assessment_results as [|r rs]; [reflexivity|].
  rewrite analyze_framework_impact_nonempty.
  unfold analyze_framework_impact.
  cbn [List.map Phase2.truthy negb orb default from_option id].
  change (row_of_question q :: List.map row_of_question qs)
    with (List.map row_of_question (q :: qs)).
  destruct (question_lookup_complete (q :: qs)) as (raw_lookup & -> & Hsame).
  cbn [bind]. unfold process_results.
  change (row_of_result r :: List.map row_of_result rs)
    with (List.map row_of_result (r :: rs)).
  change (Return (∅ : gmap string (list finding)))
    with (Return (findings_of ∅)).
  now rewrite (process_results_complete_foldl _ _ _ _ Hsame).
Qed.

End Complete.

(** What the mapper does on the edge rows. *)
Example mapper_raises :
  Raw.analyze_framework_impact (Some [Cases.short_question])
    (Some [Raw.row_of_result (csv_row Sample.yes_no_no)])
  = Raw.Raise Raw.AttributeError
  /\ Raw.analyze_framework_impact (Some [Cases.unnamed_question])
       (Some [Raw.row_of_result (csv_row Sample.yes_no_no)])
     = Raw.Raise Raw.KeyError
  /\ Raw.analyze_framework_impact (Some [Cases.short_question])
       (Some [Raw.row_of_result (csv_row Sample.yes_no_yes)])
     = Raw.Return (Some ∅).
Proof. repeat split; vm_compute; reflexivity. Qed.

(** ** The guard of the mapper *)

Lemma analyze_guard_raw :
  (forall template_questions assessment_results,
      template_questions = None \/ template_questions = Some []
      \/ assessment_results = None \/ assessment_results = Some [] ->
      Raw.analyze_framework_impact template_questions assessment_results
      = Raw.Return None)
  /\ (forall template_questions assessment_results,
      template_questions <> [] -> assessment_results <> [] ->
      Raw.analyze_framework_impact (Some template_questions)
                                   (Some assessment_results)
      <> Raw.Return None).
Proof.
  split.
  - intros tq rs [-> | [-> | [-> | ->]]]; try reflexivity;
      now destruct tq as [[|? ?]|].
  - intros [|q qs] [|r rs] Hq Hr; try congruence.
    unfold Raw.analyze_framework_impact.
    cbn [Phase2.truthy negb orb default from_option id].
    destruct (Raw.question_lookup (q :: qs)) as [lookup|e]; [|discriminate].
    cbn [Raw.bind].
    destruct (Raw.process_results lookup (r :: rs)); discriminate.
Qed.




(** ** An answer outside the catalog *)

(** C10.  An answer whose QuestionID is not in the catalog, risky or
    not, leaves the findings as they are, and the mapper returns a map
    that holds under every control exactly the findings of the other
    answers, in their order: the same map as on the sequence without that
    answer. *)
Theorem absent_question_skipped
    (template_questions : list Phase2.Question)
    (before after : list Phase2.Row) (result : Phase2.Row) :
  template_questions <> [] ->
  (forall q, q ∈ template_questions ->
             Phase2.q_QuestionID q <> Phase2.QuestionID result) ->
  (forall framework_findings,
      Phase2.process_result (Phase2.question_lookup template_questions)
                            framework_findings result
      = framework_findings)
  /\ exists framework_findings,
      Phase2.analyze_framework_impact (Some template_questions)
        (Some (before ++ result :: after)) = Some framework_findings
      /\ (forall control,
            framework_findings !! control
            = match flat_map (Derived.contributions
                                (Phase2.question_lookup template_questions)
                                control)
                             (before ++ after) with
              | [] => None
              | findings => Some findings
              end)
      /\ (before ++ after <> [] ->
          Phase2.analyze_framework_impact (Some template_questions)
            (Some (before ++ after)) = Some framework_findings)
      /\ Raw.analyze_framework_impact
           (Some (List.map Raw.row_of_question template_questions))
           (Some (List.map Raw.row_of_result (before ++ result :: after)))
         = Raw.Return (Some (Raw.findings_of framework_findings)).
Proof.
  intros Hne Habs.
  assert (forall m, Phase2.process_result (Phase2.question_lookup template_questions)
                                          m result = m) as Hskip.
  { intros m. apply process_result_absent. now apply question_lookup_absent. }
  split; [exact Hskip|].
  exists (foldl (Phase2.process_result (Phase2.question_lookup template_questions))
                ∅ (before ++ after)).
  destruct template_questions as [|q qs]; [congruence|].
  assert (Phase2.analyze_framework_impact (Some (q :: qs))
            (Some (before ++ result :: after))
          = Some (foldl (Phase2.process_result (Phase2.question_lookup (q :: qs)))
                        ∅ (before ++ after))) as Hm.
  { destruct (before ++ result :: after) as [|r rs] eqn:E.
    { now destruct before. }
    rewrite analyze_framework_impact_nonempty, <- E.
    f_equal. rewrite !foldl_app. cbn. now rewrite Hskip. }
  split; [exact Hm|]. split; [|split].
  - intros control. rewrite lookup_loop, lookup_empty.
    now destruct (flat_map _ (before ++ after)).
  - intros Hrest. destruct (before ++ after) as [|r rs]; [congruence|].
    apply analyze_framework_impact_nonempty.
  - now rewrite analyze_complete, Hm.
Qed.

Lemma absent_question_skipped_witness :
  0 < Phase2.points_earned (csv_row Cases.absent_risky)
  /\ exists framework_findings,
      Phase2.analyze_framework_impact (Some Sample.catalog)
        (Some ([csv_row Sample.yes_no_no] ++ csv_row Cases.absent_risky
                 :: [csv_row Sample.yes_no_no]))
      = Some framework_findings
      /\ framework_findings !! "ISO:A.9"
         = Some [Sample.finding_Q1; Sample.finding_Q1]
      /\ framework_findings !! "Q9" = None.
Proof.
  split; [reflexivity|].
  destruct (absent_question_skipped Sample.catalog [csv_row Sample.yes_no_no]
              [csv_row Sample.yes_no_no] (csv_row Cases.absent_risky))
    as (_ & m & Hm & Hc & _ & _).
  - discriminate.
  - intros q Hq. apply list_elem_of_singleton in Hq. subst q. discriminate.
  - exists m. split; [exact Hm|]. split.
    + rewrite Hc. reflexivity.
    + rewrite Hc. reflexivity.
Defined.

(** ** Loading the template, row by row *)

Section Loading.

Import Raw.



End Loading.




(** ** The phase-2 script on the rows as read *)

(** X26.  The phase-2 script never reports a failed analysis.  It
    reports that the data could not be loaded exactly when one of the two
    files is missing or empty; otherwise the analysis either returns a map,
    and the report of that map is written, or raises, and the script ends
    with that exception. *)
Theorem phase2_main_outcomes
    (script vendor_name : string)
    (template_questions assessment_results : option (list Raw.row)) :
  Raw.main script vendor_name template_questions assessment_results
  <> Raw.AnalysisFailed
  /\ (Raw.main script vendor_name template_questions assessment_results
      = Raw.CouldNotLoadData
      <-> Phase2.truthy template_questions = false
          \/ Phase2.truthy assessment_results = false)
  /\ (Phase2.truthy template_questions = true ->
      Phase2.truthy assessment_results = true ->
      (exists framework_findings,
          Raw.analyze_framework_impact template_questions assessment_results
          = Raw.Return (Some framework_findings)
          /\ Raw.main script vendor_name template_questions assessment_results
             = Raw.ReportWritten
                 (FrameworkReport.generate_framework_report script vendor_name
                    (fmap (List.map Raw.printed) framework_findings)))
      \/ (exists e,
             Raw.analyze_framework_impact template_questions assessment_results
             = Raw.Raise e
             /\ Raw.main script vendor_name template_questions assessment_results
                = Raw.Crashed e)).
Proof.
  unfold Raw.main.
  destruct (Phase2.truthy template_questions) eqn:Ht;
    [destruct (Phase2.truthy assessment_results) eqn:Hr|]; cbn [andb].
  - destruct template_questions as [[|q qs]|]; try discriminate.
    destruct assessment_results as [[|r rs]|]; try discriminate.
    assert (Raw.analyze_framework_impact (Some (q :: qs)) (Some (r :: rs))
            <> Raw.Return None) as Hnone
        by (apply analyze_guard_raw; discriminate).
    destruct (Raw.analyze_framework_impact (Some (q :: qs)) (Some (r :: rs)))
      as [[m|]|e].
    + split; [discriminate|]. split.
      * split; [discriminate | intros [?|?]; discriminate].
      * intros _ _. left. now exists m.
    + exfalso. now apply Hnone.
    + split; [discriminate|]. split.
      * split; [discriminate | intros [?|?]; discriminate].
      * intros _ _. right. now exists e.
  - split; [discriminate|]. split; [|discriminate].
    split; [intros _; now right | reflexivity].
  - split; [discriminate|]. split; [|discriminate].
    split; [intros _; now left | reflexivity].
Qed.

Lemma phase2_main_outcomes_witness :
  (exists report,
      Raw.main "phase2_mapper.py" "Acme Corp"
        (Some (List.map Raw.row_of_question Sample.catalog))
        (Some [Raw.row_of_result (csv_row Sample.yes_no_no)])
      = Raw.ReportWritten report)
  /\ Raw.main "phase2_mapper.py" "Acme Corp" (Some [Cases.short_question])
       (Some [Raw.row_of_result (csv_row Sample.yes_no_no)])
     = Raw.Crashed Raw.AttributeError
  /\ Raw.main "phase2_mapper.py" "Acme Corp"
       (Some (List.map Raw.row_of_question Sample.catalog)) (Some [])
     = Raw.CouldNotLoadData.
Proof.
  split; [|split].
  - destruct (phase2_main_outcomes "phase2_mapper.py" "Acme Corp"
                (Some (List.map Raw.row_of_question Sample.catalog))
                (Some [Raw.row_of_result (csv_row Sample.yes_no_no)]))
      as (_ & _ & H).
    destruct (H eq_refl eq_refl) as [(m & _ & Hm) | (e & He & _)].
    + eexists. exact Hm.
    + vm_compute in He. discriminate He.
  - destruct (phase2_main_outcomes "phase2_mapper.py" "Acme Corp"
                (Some [Cases.short_question])
                (Some [Raw.row_of_result (csv_row Sample.yes_no_no)]))
      as (_ & _ & H).
    destruct (H eq_refl eq_refl) as [(m & Hm & _) | (e & He & Hmain)].
    + vm_compute in Hm. discriminate Hm.
    + rewrite Hmain. vm_compute in He. now injection He as <-.
  - apply (phase2_main_outcomes "phase2_mapper.py" "Acme Corp"
             (Some (List.map Raw.row_of_question Sample.catalog)) (Some [])).
    right. reflexivity.
Defined.

(** X28.  On a template with a QuestionID column and on rows of both
    files whose cells are all present, the mapper raises nothing: it
    returns [None] or the map, with the same findings cell for cell, that
    the mapper computes on the rows taken as records of strings. *)
Theorem complete_rows_do_not_raise
    (template_questions : list Phase2.Question)
    (assessment_results : list Phase2.Row) :
  Raw.analyze_framework_impact
    (Some (List.map Raw.row_of_question template_questions))
    (Some (List.map Raw.row_of_result assessment_results))
  = Raw.Return
      (Raw.findings_of
         <$> Phase2.analyze_framework_impact (Some template_questions)
               (Some assessment_results))
  /\ forall finding, Raw.printed (Raw.finding_of finding) = finding.
Proof.
  split; [apply analyze_complete|]. now intros [].
Qed.

(** On complete rows the two models of [load_questionnaire] load the same
    weights and fail together. *)
Lemma load_questionnaire_complete (fieldnames : list string)
    (rows : list Phase2.Question) :
  fmap (List.map Raw.weight)
       (Raw.load_questionnaire
          (Some (fieldnames, List.map Raw.row_of_question rows)))
  = fmap (List.map Collect.RiskWeight)
         (Collect.load_questionnaire (Some (fieldnames, rows))).
Proof.
  unfold Raw.load_questionnaire, Collect.load_questionnaire.
  destruct (forallb _ Collect.required_cols); [|reflexivity].
  assert (Raw.convert_rows (List.map Raw.row_of_question rows)
          = Raw.Return
              (List.map (fun q =>
                           {| Raw.cells := delete "RiskWeight" (Raw.row_of_question q);
                              Raw.weight := Collect.RiskWeight (Collect.convert_row q) |})
                        rows)) as ->.
  { induction rows as [|q rows IH]; [reflexivity|].
    cbn [List.map Raw.convert_rows]. unfold Raw.convert_row at 1.
    destruct (question_cells q) as (_ & _ & _ & -> & _).
    cbn [Raw.bind]. rewrite IH. reflexivity. }
  cbn [fmap option_fmap option_map]. f_equal. rewrite !map_map. reflexivity.
Qed.
